(** * Canadian banks stock data: the scrape / clean / insert notebook

    A shallow embedding of the code cells of
    [Canadian_banks_yahoo_finance_webscraping.ipynb] (and of
    [notebooks/00_Web_Scraping.ipynb], whose cells are the first half of the
    former), followed by the properties of the ingestion pipeline.

    Modelling choices, all visible in the definitions below:
    - a CSV file is the list of its lines, a line the list of its fields;
      the field text is kept as written (prices and volumes are decimal
      text, an empty field is what pandas reads as NaN); the types pandas
      infers for the columns of a frame are not modelled, and no statement
      below depends on them;
    - the file system is a finite map from paths to files;
    - the PostgreSQL session is the list of committed rows, the rows of the
      open transaction and the statements issued so far;
    - Python exceptions are values of [exn]; a cell is a state transformer
      that either finishes or raises. *)

From Stdlib Require Import String Ascii List Bool.
From stdpp Require Import base decidable option list strings gmap.

Local Open Scope string_scope.
Local Open Scope list_scope.

(** ** CSV files and data frames *)

Definition line := list string.
Definition csv_file := list line.

Record DataFrame := mkFrame {
  columns : list string;
  rows : list line
}.

(** Exceptions the modelled calls can raise. *)
Inductive exn :=
| FileNotFoundError (path : string)
| EmptyDataError                (* pandas: no columns to parse from file *)
| ParserError                   (* pandas: a row has more fields than the header *)
| LengthMismatch                (* pandas ValueError: df.columns = [...] of another width *)
| KeyError (name : string)      (* row[name] for an unknown column *)
| OperationalError              (* psycopg2.connect: server not reachable *)
| DataError (ticker date : string)        (* a value does not fit its column *)
| UniqueViolation (ticker date : string)  (* the (stock_ticker, date) key exists *)
| ProviderError (symbol : string)         (* the market-data call failed *)
| ConstructorError.             (* pandas ValueError: pd.DataFrame(x) for an x that is no table *)

#[global] Instance exn_eq_dec : EqDecision exn.
Proof. solve_decision. Defined.

Inductive outcome (A : Type) :=
| Done (a : A)
| Raised (e : exn).
Arguments Done {A} a.
Arguments Raised {A} e.

(** [pad n l]: a row shorter than the header is filled with NaN. *)
Definition pad (n : nat) (l : line) : line := l ++ repeat "" (n - length l).

(** [pd.read_csv(path, skiprows=k)] on the lines of the file: the first [k]
    lines are skipped, the next one names the columns, the others are the
    rows, a short row being filled with NaN.

    The function follows pandas on files whose lines after the skipped
    ones are not blank and, from the second on, not longer than the first;
    the files the save loop writes are of that kind.  Outside of them it
    does not: pandas skips a blank line where the function keeps it as a
    row of NaN, and reads the first field of every row as an index when
    the rows are longer than the header (and what the header is then
    depends on the first row) where the function raises.  Cells are kept
    as the text of the file, where pandas gives each column a type
    (float64, int64 or object) and parses the cells accordingly.  The
    statements below that go through this function stay inside these
    limits: they fix the width of the lines they speak of, and speak of
    the shape of the frame and of the rows sent, not of values pandas
    would have parsed. *)
Definition read_csv_lines (skiprows : nat) (f : csv_file) : outcome DataFrame :=
  match skipn skiprows f with
  | [] => Raised EmptyDataError
  | header :: body =>
      if forallb (fun r : line => Nat.leb (length r) (length header)) body
      then Done (mkFrame header (map (pad (length header)) body))
      else Raised ParserError
  end.

(** [df.iloc[k:].reset_index(drop=True)] *)
Definition iloc_from (k : nat) (df : DataFrame) : DataFrame :=
  mkFrame (columns df) (skipn k (rows df)).

(** [df.columns = names] *)
Definition set_columns (names : list string) (df : DataFrame) : outcome DataFrame :=
  if Nat.eqb (length names) (length (columns df))
  then Done (mkFrame names (rows df))
  else Raised LengthMismatch.

Fixpoint index_of (name : string) (cols : list string) : option nat :=
  match cols with
  | [] => None
  | c :: cols' => if String.eqb c name then Some 0 else S <$> index_of name cols'
  end.

(** [row[name]] for a row of a frame with columns [cols]. *)
Definition getitem (cols : list string) (row : line) (name : string) : outcome string :=
  match index_of name cols with
  | Some i => Done (nth i row "")
  | None => Raised (KeyError name)
  end.

(** The column names both cleaning cells assign. *)
Definition schema_columns : list string :=
  ["date"; "close_price"; "high_price"; "low_price"; "open_price"; "volume"].

(** ** The [stock_prices] table and the database session *)

Record db_row := mkRow {
  stock_ticker : string;
  date : string;
  open_price : string;
  high_price : string;
  low_price : string;
  close_price : string;
  volume : string
}.

#[global] Instance db_row_eq_dec : EqDecision db_row.
Proof. solve_decision. Defined.

Definition key_of (r : db_row) : string * string := (stock_ticker r, date r).

(** The declaration of [stock_prices] is not part of the notebooks (the
    table exists in the database before the insert cell runs), so it is a
    parameter of the session: whether (stock_ticker, date) is declared
    unique, and which rows fit the column types. *)
Record table_decl := mkTable {
  unique_key : bool;
  col_ok : db_row -> bool
}.

Inductive statement :=
| StInsert (r : db_row)
| StCommit.

#[global] Instance statement_eq_dec : EqDecision statement.
Proof. solve_decision. Defined.

Inductive message :=
| MsgDownloading (bank ticker : string)
| MsgSavedHistorical (bank : string)
| MsgScraping (bank ticker : string)
| MsgDataSaved (bank : string)
| MsgInserted (bank ticker : string)
| MsgError (e : exn).

#[global] Instance message_eq_dec : EqDecision message.
Proof. solve_decision. Defined.

Record world := mkWorld {
  files : gmap string csv_file;   (* the file system *)
  db_up : bool;                   (* is the database server reachable *)
  committed : list db_row;        (* rows durably in stock_prices *)
  pending : list db_row;          (* rows inserted by the open transaction *)
  issued : list statement;        (* statements sent, oldest first *)
  stdout : list message           (* lines printed, oldest first *)
}.

Definition with_files (fs : gmap string csv_file) (w : world) : world :=
  mkWorld fs (db_up w) (committed w) (pending w) (issued w) (stdout w).
Definition with_txn (c p : list db_row) (w : world) : world :=
  mkWorld (files w) (db_up w) c p (issued w) (stdout w).
Definition log_statement (s : statement) (w : world) : world :=
  mkWorld (files w) (db_up w) (committed w) (pending w) (issued w ++ [s]) (stdout w).
Definition log_message (m : message) (w : world) : world :=
  mkWorld (files w) (db_up w) (committed w) (pending w) (issued w) (stdout w ++ [m]).

(** ** Cells as state transformers that may raise *)

Definition Exec (A : Type) : Type := world -> world * outcome A.

Definition ret {A} (a : A) : Exec A := fun w => (w, Done a).
Definition raise {A} (e : exn) : Exec A := fun w => (w, Raised e).
Definition bind {A B} (c : Exec A) (k : A -> Exec B) : Exec B :=
  fun w =>
    match c w with
    | (w', Done a) => k a w'
    | (w', Raised e) => (w', Raised e)
    end.
Definition lift {A} (o : outcome A) : Exec A := fun w => (w, o).

Notation "x <- c ;; k" := (bind c (fun x => k))
  (at level 62, c at next level, right associativity).
Notation "c ;;; k" := (bind c (fun _ => k))
  (at level 62, right associativity).

(** [for x in xs: body(x)] *)
Fixpoint for_each {A} (xs : list A) (body : A -> Exec unit) : Exec unit :=
  match xs with
  | [] => ret tt
  | x :: xs' => body x ;;; for_each xs' body
  end.

(** [try: body except Exception as e: handler(e)] *)
Definition try_except (body : Exec unit) (handler : exn -> Exec unit) : Exec unit :=
  fun w =>
    match body w with
    | (w', Done _) => (w', Done tt)
    | (w', Raised e) => handler e w'
    end.

Definition print (m : message) : Exec unit := fun w => (log_message m w, Done tt).

(** [os.path.join] with the separator of the notebook's platform. *)
Definition path_join (dir name : string) : string := dir +:+ "\" +:+ name.

Definition path_exists (p : string) : Exec bool :=
  fun w => (w, Done (bool_decide (is_Some (files w !! p)))).

Definition read_csv (p : string) (skiprows : nat) : Exec DataFrame :=
  fun w =>
    match files w !! p with
    | Some f => (w, read_csv_lines skiprows f)
    | None => (w, Raised (FileNotFoundError p))
    end.

Definition write_file (p : string) (f : csv_file) : Exec unit :=
  fun w => (with_files (<[p := f]> (files w)) w, Done tt).

Section Session.
Variable tbl : table_decl.

Definition connect : Exec unit :=
  fun w => if db_up w then (with_txn (committed w) [] w, Done tt)
           else (w, Raised OperationalError).

Definition key_taken (r : db_row) (w : world) : bool :=
  bool_decide (key_of r ∈ map key_of (committed w ++ pending w)).

(** [cursor.execute(insert_query, params)]: a plain INSERT.  A statement
    the server refuses aborts the transaction, whose earlier inserts are
    thereby lost. *)
Definition cursor_execute (r : db_row) : Exec unit :=
  fun w =>
    let w1 := log_statement (StInsert r) w in
    if negb (col_ok tbl r)
    then (with_txn (committed w1) [] w1, Raised (DataError (stock_ticker r) (date r)))
    else if unique_key tbl && key_taken r w
    then (with_txn (committed w1) [] w1, Raised (UniqueViolation (stock_ticker r) (date r)))
    else (with_txn (committed w1) (pending w1 ++ [r]) w1, Done tt).

(** [conn.commit()] *)
Definition conn_commit : Exec unit :=
  fun w =>
    let w1 := log_statement StCommit w in
    (with_txn (committed w1 ++ pending w1) [] w1, Done tt).

(** [cursor.close(); conn.close()]: closing discards an open transaction. *)
Definition conn_close : Exec unit :=
  fun w => (with_txn (committed w) [] w, Done tt).
End Session.

(** ** Cells 10 to 19: scraping *)

Module Scraping.

(** Cell 10 *)
Definition bank_tickers : list (string * string) :=
  [("TD", "TD.TO"); ("BMO", "BMO.TO"); ("RBC", "RY.TO");
   ("CIBC", "CM.TO"); ("Scotiabank", "BNS.TO")].

(** One daily bar as [yf.download] returns it, in the column order of the
    frame: the date index, then Close, High, Low, Open, Volume. *)
Record price_bar := mkBar {
  bar_date : string;
  bar_close : string;
  bar_high : string;
  bar_low : string;
  bar_open : string;
  bar_volume : string
}.

Definition bar_line (b : price_bar) : line :=
  [bar_date b; bar_close b; bar_high b; bar_low b; bar_open b; bar_volume b].

(** [data.to_csv(path)] for the frame of one symbol: the two levels of the
    column index and the name of the row index take three lines (the
    output of cell 22 shows them read back), the bars follow. *)
Definition to_csv (ticker : string) (bars : list price_bar) : csv_file :=
  ["Price"; "Close"; "High"; "Low"; "Open"; "Volume"]
  :: ("Ticker" :: repeat ticker 5)
  :: ["Date"; ""; ""; ""; ""; ""]
  :: map bar_line bars.

(** One row of [stock.history(period="max")]: the (symbol, date) index and
    the cell of the dividends column (the price columns play no part in the
    cell and are left out). *)
Record history_row := mkHistory {
  h_symbol : string;
  h_date : string;
  h_dividends : string
}.

(** The frame [stock.history(period="max")] returns.  The provider adds the
    dividends column only when the history holds a dividend event, so the
    frame may come without it: [with_dividends] tells whether it is there,
    and [h_dividends] is read only when it is. *)
Record history_frame := mkHistoryFrame {
  with_dividends : bool;
  history_rows : list history_row
}.

(** What [stock.income_statement()], [stock.balance_sheet()] and
    [stock.cash_flow()] answer: a frame, given by the lines of its CSV
    form, or a plain text when the provider has no statement for the
    symbol. *)
Inductive answer :=
| Table (f : csv_file)
| Notice (text : string).

Definition dividends_csv (d : list history_row) : csv_file :=
  ["symbol"; "date"; "dividends"]
  :: map (fun h => [h_symbol h; h_date h; h_dividends h]) d.

(** [historical_data[bank] = data] on an insertion-ordered dict *)
Fixpoint dict_set {V} (k : string) (v : V) (d : list (string * V)) : list (string * V) :=
  match d with
  | [] => [(k, v)]
  | (k', v') :: d' => if String.eqb k' k then (k, v) :: d' else (k', v') :: dict_set k v d'
  end.

Section Provider.
(** The market-data provider: what each call answers for a symbol. *)
Variable yf_download : string -> outcome (list price_bar).
Variable income_statement : string -> outcome answer.
Variable balance_sheet : string -> outcome answer.
Variable cash_flow : string -> outcome answer.
Variable history : string -> outcome history_frame.
(** The directory the notebook runs in: relative paths resolve there. *)
Variable cwd : string.

(** Cell 11 *)
Fixpoint download_loop (tickers : list (string * string))
    (historical_data : list (string * (string * list price_bar)))
    : Exec (list (string * (string * list price_bar))) :=
  match tickers with
  | [] => ret historical_data
  | (bank, ticker) :: rest =>
      print (MsgDownloading bank ticker) ;;;
      data <- lift (yf_download ticker) ;;
      download_loop rest (dict_set bank (ticker, data) historical_data)
  end.

(** Cell 12 *)
Definition save_historical (bd : string * (string * list price_bar)) : Exec unit :=
  let '(bank, (ticker, bars)) := bd in
  write_file (path_join cwd (bank +:+ "_historical_data.csv")) (to_csv ticker bars) ;;;
  print (MsgSavedHistorical bank).

Definition download_and_save (tickers : list (string * string)) : Exec unit :=
  historical_data <- download_loop tickers [] ;;
  for_each historical_data save_historical.

(** [pd.DataFrame(x).to_csv(path, index=False)]: the constructor raises for
    an [x] that is no table, before anything is written. *)
Definition save_answer (p : string) (x : answer) : Exec unit :=
  match x with
  | Table f => write_file p f
  | Notice _ => raise ConstructorError
  end.

(** [dividends[["dividends"]]]: a KeyError when the frame has no such
    column. *)
Definition select_dividends (with_column : bool) (rows : list history_row)
    : Exec (list history_row) :=
  if with_column then ret rows else raise (KeyError "dividends").

(** Cell 18, the body of the loop of [scrape_financial_data] *)
Definition scrape_bank (bt : string * string) : Exec unit :=
  let '(bank, ticker) := bt in
  print (MsgScraping bank ticker) ;;;
  income <- lift (income_statement ticker) ;;
  balance <- lift (balance_sheet ticker) ;;
  cash <- lift (cash_flow ticker) ;;
  dividends <- lift (history ticker) ;;
  let rows := filter (fun h => String.eqb (h_symbol h) ticker) (history_rows dividends) in
  dividends <- select_dividends (with_dividends dividends) rows ;;
  save_answer (path_join cwd (bank +:+ "_income_statement.csv")) income ;;;
  save_answer (path_join cwd (bank +:+ "_balance_sheet.csv")) balance ;;;
  save_answer (path_join cwd (bank +:+ "_cash_flow.csv")) cash ;;;
  (if negb (bool_decide (dividends = []))
   then write_file (path_join cwd (bank +:+ "_dividends.csv")) (dividends_csv dividends)
   else ret tt) ;;;
  print (MsgDataSaved bank).

Definition scrape_financial_data (tickers : list (string * string)) : Exec unit :=
  for_each tickers scrape_bank.
End Provider.

End Scraping.

(** ** Cells 21 to 25: the inspection of TD's file *)

Module Inspection.

Definition td_path : string :=
  "D:\canadian_banks_stock_data\canadian_banks_stock_data\TD_historical_data.csv".

(** Cell 21, cell 24 ("Drop the first 2 row") and cell 25. *)
Definition clean (f : csv_file) : outcome DataFrame :=
  match read_csv_lines 0 f with
  | Done td_data => set_columns schema_columns (iloc_from 2 td_data)
  | Raised e => Raised e
  end.

Definition td_data : Exec DataFrame :=
  fun w =>
    match files w !! td_path with
    | Some f => (w, clean f)
    | None => (w, Raised (FileNotFoundError td_path))
    end.

End Inspection.

(** ** Cell 32: inserting row by row *)

Module Insertion.

Definition csv_folder : string := "D:\CANADIAN_BANKS_STOCK_DATA".

(** The cell rebinds [bank_tickers]. *)
Definition bank_tickers : list (string * string) :=
  [("TD", "TD.TO"); ("Scotiabank", "BNS.TO"); ("RBC", "RY.TO")].

Definition file_path (bank : string) : string :=
  path_join csv_folder (bank +:+ "_historical_data.csv").

(** The parameters of [insert_query] for one row of the frame. *)
Definition insert_params (ticker : string) (cols : list string) (row : line)
    : outcome db_row :=
  match getitem cols row "date", getitem cols row "open_price",
        getitem cols row "high_price", getitem cols row "low_price",
        getitem cols row "close_price", getitem cols row "volume" with
  | Done d, Done o, Done h, Done l, Done c, Done v => Done (mkRow ticker d o h l c v)
  | Raised e, _, _, _, _, _ => Raised e
  | _, Raised e, _, _, _, _ => Raised e
  | _, _, Raised e, _, _, _ => Raised e
  | _, _, _, Raised e, _, _ => Raised e
  | _, _, _, _, Raised e, _ => Raised e
  | _, _, _, _, _, Raised e => Raised e
  end.

(** [skiprows=2], then the renaming of the columns. *)
Definition clean (f : csv_file) : outcome DataFrame :=
  match read_csv_lines 2 f with
  | Done df => set_columns schema_columns df
  | Raised e => Raised e
  end.

Section Table.
Variable tbl : table_decl.

Definition insert_row (ticker : string) (cols : list string) (row : line) : Exec unit :=
  r <- lift (insert_params ticker cols row) ;;
  cursor_execute tbl r.

(** From reading the file to [conn.commit()] and the message. *)
Definition insert_file (bank ticker file_path : string) : Exec unit :=
  df <- read_csv file_path 2 ;;
  df <- lift (set_columns schema_columns df) ;;
  for_each (rows df) (insert_row ticker (columns df)) ;;;
  conn_commit ;;;
  print (MsgInserted bank ticker).

(** The body of the loop over [bank_tickers.items()]. *)
Definition insert_bank (bt : string * string) : Exec unit :=
  let '(bank, ticker) := bt in
  found <- path_exists (file_path bank) ;;
  if found then insert_file bank ticker (file_path bank) else ret tt.

Definition insert_loop (tickers : list (string * string)) : Exec unit :=
  for_each tickers insert_bank.

(** The whole cell, for any dict bound to [bank_tickers]. *)
Definition insert_cell_of (tickers : list (string * string)) : Exec unit :=
  try_except
    (connect ;;; insert_loop tickers ;;; conn_close)
    (fun e => print (MsgError e)).

Definition insert_cell : Exec unit := insert_cell_of bank_tickers.
End Table.

End Insertion.

(** ** The canonical schema, as the specification words it *)

Module Canonical.

Definition is_digit (c : ascii) : bool :=
  Nat.leb 48 (nat_of_ascii c) && Nat.leb (nat_of_ascii c) 57.

Definition all_digits (cs : list ascii) : bool :=
  negb (bool_decide (cs = [])) && forallb is_digit cs.

Definition digit_value (c : ascii) : nat := nat_of_ascii c - 48.

Definition number_of (cs : list ascii) : nat :=
  fold_left (fun acc c => 10 * acc + digit_value c) cs 0.

Definition leap_year (y : nat) : bool :=
  (Nat.eqb (y mod 4) 0 && negb (Nat.eqb (y mod 100) 0)) || Nat.eqb (y mod 400) 0.

Definition days_in_month (y m : nat) : nat :=
  match m with
  | 1 | 3 | 5 | 7 | 8 | 10 | 12 => 31
  | 4 | 6 | 9 | 11 => 30
  | 2 => if leap_year y then 29 else 28
  | _ => 0
  end.

(** Modelled from the spec: "date is a calendar date without timezone";
    the notebooks never parse a date, so the test is the ISO form
    YYYY-MM-DD the provider writes, with a month and a day that exist. *)
Definition is_calendar_date (s : string) : bool :=
  match list_ascii_of_string s with
  | [y1; y2; y3; y4; d1; m1; m2; d2; a1; a2] =>
      Ascii.eqb d1 "-" && Ascii.eqb d2 "-"
      && all_digits [y1; y2; y3; y4] && all_digits [m1; m2] && all_digits [a1; a2]
      && Nat.leb 1 (number_of [m1; m2]) && Nat.leb (number_of [m1; m2]) 12
      && Nat.leb 1 (number_of [a1; a2])
      && Nat.leb (number_of [a1; a2])
                 (days_in_month (number_of [y1; y2; y3; y4]) (number_of [m1; m2]))
  | _ => false
  end.

Fixpoint split_at_dot (cs : list ascii) : list ascii * option (list ascii) :=
  match cs with
  | [] => ([], None)
  | c :: cs' =>
      if Ascii.eqb c "." then ([], Some cs')
      else let '(a, b) := split_at_dot cs' in (c :: a, b)
  end.

Definition is_unsigned_decimal (cs : list ascii) : bool :=
  match split_at_dot cs with
  | (a, None) => all_digits a
  | (a, Some b) => all_digits a && all_digits b
  end.

(** Modelled from the spec: "open/high/low/close are floating-point"; the
    test is for decimal text, with an optional sign. *)
Definition is_number (s : string) : bool :=
  match list_ascii_of_string s with
  | c :: cs => if Ascii.eqb c "-" then is_unsigned_decimal cs
               else is_unsigned_decimal (c :: cs)
  | [] => false
  end.

(** Modelled from the spec: "volume is a non-negative integer". *)
Definition is_integer (s : string) : bool :=
  all_digits (list_ascii_of_string s).

(** Modelled from the spec: the type constraints of the canonical schema
    on one row of a cleaned frame (date, close, high, low, open, volume). *)
Definition canonical_line (r : line) : bool :=
  match r with
  | [d; c; h; l; o; v] =>
      is_calendar_date d && is_number c && is_number h && is_number l
      && is_number o && is_integer v
  | _ => false
  end.

(** Modelled from the spec: a header artifact is "a row whose date field
    is not parseable as a calendar date, or whose price fields are not
    parseable as numbers". *)
Definition is_header_artifact (r : line) : bool :=
  match r with
  | d :: c :: h :: l :: o :: _ =>
      negb (is_calendar_date d)
      || negb (is_number c && is_number h && is_number l && is_number o)
  | _ => true
  end.

Fixpoint strip_leading (rs : list line) : list line :=
  match rs with
  | [] => []
  | r :: rs' => if is_header_artifact r then strip_leading rs' else r :: rs'
  end.

(** Modelled from the spec: [normalize_price_table], the normalizer the
    specification describes (no cell of the notebooks implements it):
    leading header artifacts are found by inspecting each row, a row that
    fails coercion afterwards is left out and counted. *)
Definition normalize_price_table (raw : list line) : list line * nat :=
  let body := strip_leading raw in
  (filter (fun r => canonical_line r) body,
   length (filter (fun r => negb (canonical_line r)) body)).

Definition canonical_row (r : db_row) : bool :=
  is_calendar_date (date r) && is_number (open_price r) && is_number (high_price r)
  && is_number (low_price r) && is_number (close_price r) && is_integer (volume r).

(** Modelled from the spec: the declaration of the table, "a relational
    table equivalent to stock_prices(...) with a uniqueness constraint on
    (ticker, date)", whose columns have the canonical types. *)
Definition stock_prices : table_decl := mkTable true canonical_row.

(** The same columns without the uniqueness constraint. *)
Definition stock_prices_no_key : table_decl := mkTable false canonical_row.



End Canonical.

(** ** Concrete feeds and worlds *)

Module Scenario.
Import Scraping.

(** The first four bars of TD's file, as cell 24 prints them. *)
Definition td_bars : list price_bar :=
  [mkBar "2020-01-02" "57.946807861328125" "57.99416701667758"
         "57.560076551433816" "57.78106587137342" "2207900";
   mkBar "2020-01-03" "57.89942932128906" "57.94678243435267"
         "57.54426893030253" "57.67844009831924" "3472900";
   mkBar "2020-01-06" "57.907352447509766" "57.986276349218535"
         "57.583756622543774" "57.61532738752883" "8359000";
   mkBar "2020-01-07" "57.84419250488281" "58.17567639944808"
         "57.78894518912193" "58.0178286462758" "3622600"].

Definition bns_bars : list price_bar :=
  [mkBar "2020-01-02" "55.10" "55.40" "54.90" "55.00" "1500000";
   mkBar "2020-01-03" "55.20" "55.50" "55.00" "55.10" "1600000"].

(** A bar whose date is not a date. *)
Definition bad_bar : price_bar :=
  mkBar "not-a-date" "57.9" "58.0" "57.5" "57.7" "2207900".

Definition world_of (fs : gmap string csv_file) : world :=
  mkWorld fs true [] [] [] [].

(** Only TD's file is there. *)
Definition td_only : world :=
  world_of {[ Insertion.file_path "TD" := to_csv "TD.TO" td_bars ]}.

Definition td_rows : list db_row :=
  map (fun b => mkRow "TD.TO" (bar_date b) (bar_open b) (bar_high b)
                      (bar_low b) (bar_close b) (bar_volume b)) td_bars.

(** A file with a single header line: the bars start on the second line. *)
Definition flat_file : csv_file :=
  ["Date"; "Close"; "High"; "Low"; "Open"; "Volume"] :: map bar_line td_bars.

(** TD's bars with a bar that has no date in second place. *)
Definition mixed_bars : list price_bar :=
  firstn 1 td_bars ++ bad_bar :: skipn 1 td_bars.

Definition mixed_file : csv_file := to_csv "TD.TO" mixed_bars.

(** TD's file holds the bar without a date, Scotiabank's file is sound. *)
Definition td_mixed_bns_sound : world :=
  world_of {[ Insertion.file_path "TD" := mixed_file;
              Insertion.file_path "Scotiabank" := to_csv "BNS.TO" bns_bars ]}.

Definition bns_rows : list db_row :=
  map (fun b => mkRow "BNS.TO" (bar_date b) (bar_open b) (bar_high b)
                      (bar_low b) (bar_close b) (bar_volume b)) bns_bars.

(** No file at all in the CSV folder. *)
Definition no_files : world := world_of ∅.

(** The catalog of the end-to-end scenario. *)
Definition td_catalog : list (string * string) := [("TD", "TD.TO")].

(** A provider that knows TD only. *)
Definition td_feed (symbol : string) : outcome (list price_bar) :=
  if String.eqb symbol "TD.TO" then Done td_bars
  else Raised (ProviderError symbol).

(** A provider that answers for every symbol. *)
Definition full_feed (symbol : string) : outcome (list price_bar) :=
  if String.eqb symbol "TD.TO" then Done td_bars else Done bns_bars.

(** Download and save in the CSV folder, then insert, for one catalog. *)
Definition end_to_end (feed : string -> outcome (list price_bar))
    (tbl : table_decl) (catalog : list (string * string)) : Exec unit :=
  download_and_save feed Insertion.csv_folder catalog ;;;
  Insertion.insert_cell_of tbl catalog.

(** The notebook as written: cells 10 to 12 on the five tickers, then
    cell 32 on its own three. *)
Definition notebook (feed : string -> outcome (list price_bar))
    (tbl : table_decl) : Exec unit :=
  download_and_save feed Insertion.csv_folder bank_tickers ;;;
  Insertion.insert_cell tbl.

(** Statement and history answers of a provider whose history holds no row
    for the symbol asked. *)
Definition statement_lines : csv_file :=
  [["asOfDate"; "TotalRevenue"]; ["2024-10-31"; "57000000000"]].

Definition some_statement (symbol : string) : outcome answer :=
  Done (Table statement_lines).







(** The history of a symbol that never paid a dividend: the frame has the
    price columns only. *)
Definition no_dividend (symbol : string) : history_frame :=
  mkHistoryFrame false
    [mkHistory symbol "2020-01-02" ""; mkHistory symbol "2020-01-03" ""].

Definition no_dividend_history (symbol : string) : outcome history_frame :=
  Done (no_dividend symbol).

End Scenario.

(** ** Derived notions used in the statements *)

(** The row [insert_query] receives for one line of a cleaned frame: the
    field text, reordered, behind the provider symbol. *)
Definition row_of (ticker : string) (row : line) : db_row :=
  mkRow ticker (nth 0 row "") (nth 4 row "") (nth 2 row "") (nth 3 row "")
        (nth 1 row "") (nth 5 row "").

(** The rows the insert cell sends for one file. *)
Definition batch_of (ticker : string) (f : csv_file) : list db_row :=
  match Insertion.clean f with
  | Done df => map (row_of ticker) (rows df)
  | Raised _ => []
  end.

(** The rows of the raw table: what [pd.read_csv(path)] shows under the
    first line of the file. *)
Definition raw_table (f : csv_file) : list line := tl f.

Definition has_file (w : world) (bt : string * string) : bool :=
  bool_decide (is_Some (files w !! Insertion.file_path (fst bt))).

Definition inserted_message (bt : string * string) : message :=
  MsgInserted (fst bt) (snd bt).

(** Does a printed line name the bank or its symbol? *)
Definition names_ticker (bt : string * string) (m : message) : bool :=
  match m with
  | MsgDownloading b t | MsgScraping b t | MsgInserted b t =>
      String.eqb b (fst bt) || String.eqb t (snd bt)
  | MsgSavedHistorical b | MsgDataSaved b => String.eqb b (fst bt)
  | MsgError (DataError t _) | MsgError (UniqueViolation t _)
  | MsgError (ProviderError t) => String.eqb t (snd bt)
  | MsgError _ => false
  end.

Definition rows_of_ticker (ticker : string) (rs : list db_row) : list db_row :=
  filter (fun r => stock_ticker r = ticker) rs.

(** The world once [scrape_bank] has printed its first line and written the
    three statement files. *)
Definition statements_saved (cwd bank ticker : string) (i b c : csv_file) (w : world)
    : world :=
  let w1 := log_message (MsgScraping bank ticker) w in
  let w2 := with_files (<[path_join cwd (bank +:+ "_income_statement.csv") := i]>
                          (files w1)) w1 in
  let w3 := with_files (<[path_join cwd (bank +:+ "_balance_sheet.csv") := b]>
                          (files w2)) w2 in
  with_files (<[path_join cwd (bank +:+ "_cash_flow.csv") := c]> (files w3)) w3.

(** ** Further notions, for the properties beyond the claims *)

(** The row the insert sends for one bar of the provider. *)
Definition row_of_bar (ticker : string) (b : Scraping.price_bar) : db_row :=
  mkRow ticker (Scraping.bar_date b) (Scraping.bar_open b) (Scraping.bar_high b)
        (Scraping.bar_low b) (Scraping.bar_close b) (Scraping.bar_volume b).

(** The rows the loop sends for a catalog, file after file. *)
Definition batches (w : world) (tickers : list (string * string)) : list db_row :=
  flat_map (fun bt => match files w !! Insertion.file_path (fst bt) with
                      | Some f => batch_of (snd bt) f
                      | None => []
                      end) tickers.

(** No key twice among the rows the session sees. *)
Definition keys_unique (w : world) : Prop :=
  NoDup (map key_of (committed w ++ pending w)).

(** What [scrape_bank] does before it writes its first file: the four
    provider calls, in the order of the cell, and the selection of the
    dividends column. *)
Definition fetch_statements
    (income_statement balance_sheet cash_flow : string -> outcome Scraping.answer)
    (history : string -> outcome Scraping.history_frame) (ticker : string)
    : outcome (Scraping.answer * Scraping.answer * Scraping.answer
               * list Scraping.history_row) :=
  match income_statement ticker with
  | Raised e => Raised e
  | Done i =>
      match balance_sheet ticker with
      | Raised e => Raised e
      | Done b =>
          match cash_flow ticker with
          | Raised e => Raised e
          | Done c =>
              match history ticker with
              | Raised e => Raised e
              | Done h =>
                  if Scraping.with_dividends h
                  then Done (i, b, c, Scraping.history_rows h)
                  else Raised (KeyError "dividends")
              end
          end
      end
  end.

(** The names [scrape_bank] writes under, after the bank's name. *)
Definition statement_suffixes : list string :=
  ["_income_statement.csv"; "_balance_sheet.csv"; "_cash_flow.csv"; "_dividends.csv"].

(** [v] differs from [w] at most in the files [scrape_bank] names after
    the bank: the database is the same, and so is every other path. *)
Definition statements_only (cwd bank : string) (w v : world) : Prop :=
  committed v = committed w /\ pending v = pending w /\ issued v = issued w
  /\ forall p,
       (forall suffix, In suffix statement_suffixes ->
                       p <> path_join cwd (bank +:+ suffix)) ->
       files v !! p = files w !! p.

(** The dividend rows kept for a symbol. *)
Definition dividends_of (ticker : string) (h : list Scraping.history_row)
    : list Scraping.history_row :=
  filter (fun r => String.eqb (Scraping.h_symbol r) ticker) h.

(** [w'] continues [w]: same files, same server, and the stored rows, the
    statements and the output of [w] are the beginning of those of [w']. *)
Definition extends (w w' : world) : Prop :=
  files w' = files w /\ db_up w' = db_up w
  /\ committed w `prefix_of` committed w'
  /\ issued w `prefix_of` issued w'
  /\ stdout w `prefix_of` stdout w'.

(** A computation whose every run continues the world it starts in. *)
Definition grows {A} (c : Exec A) : Prop :=
  forall w w' o, c w = (w', o) -> extends w w'.

(** A computation every run of which keeps [P]. *)
Definition preserves (P : world -> Prop) {A} (c : Exec A) : Prop :=
  forall w w' o, P w -> c w = (w', o) -> P w'.

Module Examples.
Import Scraping.

(** A download that came back without a bar. *)
Definition empty_download : world :=
  Scenario.world_of {[ Insertion.file_path "TD" := to_csv "TD.TO" [] ]}.

(** A file cut after its second line. *)
Definition truncated_file : csv_file :=
  [["Price"; "Close"; "High"; "Low"; "Open"; "Volume"]; "Ticker" :: repeat "TD.TO" 5].

Definition truncated : world :=
  Scenario.world_of {[ Insertion.file_path "TD" := truncated_file ]}.

(** TD's and Scotiabank's files, both sound. *)
Definition two_sound_files : world :=
  Scenario.world_of {[ Insertion.file_path "TD" := to_csv "TD.TO" Scenario.td_bars;
                       Insertion.file_path "Scotiabank" := to_csv "BNS.TO" Scenario.bns_bars ]}.

(** The database cannot be reached. *)
Definition database_down : world :=
  mkWorld {[ Insertion.file_path "TD" := to_csv "TD.TO" Scenario.td_bars ]}
          false Scenario.td_rows [] [] [].

(** A history with rows of two symbols. *)
Definition mixed_rows : list history_row :=
  [mkHistory "TD.TO" "2024-10-10" "1.02"; mkHistory "RY.TO" "2024-10-24" "1.42";
   mkHistory "TD.TO" "2025-01-10" "1.05"].

Definition mixed_history (symbol : string) : outcome history_frame :=
  Done (mkHistoryFrame true mixed_rows).

Definition failing_statement (symbol : string) : outcome answer :=
  Raised (ProviderError symbol).

(** A provider that has no balance sheet for the symbol and says so. *)
Definition missing_statement (symbol : string) : outcome answer :=
  Done (Notice "Balance Sheet data unavailable").

(** TD's file without the volume column. *)
Definition narrow_file : csv_file :=
  map (firstn 5) (to_csv "TD.TO" Scenario.td_bars).

Definition narrow : world :=
  Scenario.world_of {[ Insertion.file_path "TD" := narrow_file ]}.

(** A provider that fails for BMO only. *)
Definition feed_without_bmo (symbol : string) : outcome (list price_bar) :=
  if String.eqb symbol "BMO.TO" then Raised (ProviderError symbol)
  else Done Scenario.bns_bars.

End Examples.

(** ** Basic facts about cleaning *)

Section Cleaning.

Lemma pad_full (n : nat) (l : line) : length l = n -> pad n l = l.
Proof.
  intros <-. unfold pad. rewrite Nat.sub_diag. simpl. apply app_nil_r.
Qed.

Lemma map_pad_full (n : nat) (body : list line) :
  Forall (fun r : line => length r = n) body -> map (pad n) body = body.
Proof.
  induction 1 as [|r body Hr _ IH]; simpl; [reflexivity|].
  rewrite (pad_full n r Hr), IH. reflexivity.
Qed.

Lemma forallb_width (n : nat) (body : list line) :
  Forall (fun r : line => length r = n) body ->
  forallb (fun r : line => Nat.leb (length r) n) body = true.
Proof.
  induction 1 as [|r body Hr _ IH]; simpl; [reflexivity|].
  rewrite IH, Hr, Nat.leb_refl. reflexivity.
Qed.

Lemma read_csv_lines_width (h : line) (body : list line) :
  Forall (fun r : line => length r = length h) body ->
  read_csv_lines 0 (h :: body) = Done (mkFrame h body).
Proof.
  intros Hb. unfold read_csv_lines. simpl.
  rewrite (forallb_width _ _ Hb), (map_pad_full _ _ Hb). reflexivity.
Qed.

(** Skipping two lines and renaming leaves the lines from the fourth on. *)
Lemma insertion_clean_drops (l0 l1 l2 : line) (body : list line) :
  length l2 = 6 ->
  Forall (fun r : line => length r = 6) body ->
  Insertion.clean (l0 :: l1 :: l2 :: body) = Done (mkFrame schema_columns body).
Proof.
  intros H2 Hb. unfold Insertion.clean.
  change (read_csv_lines 2 (l0 :: l1 :: l2 :: body))
    with (read_csv_lines 0 (l2 :: body)).
  rewrite read_csv_lines_width by (rewrite H2; exact Hb).
  unfold set_columns. simpl. rewrite H2. reflexivity.
Qed.

Lemma inspection_clean_drops (l0 l1 l2 : line) (body : list line) :
  length l0 = 6 -> length l1 = 6 -> length l2 = 6 ->
  Forall (fun r : line => length r = 6) body ->
  Inspection.clean (l0 :: l1 :: l2 :: body) = Done (mkFrame schema_columns body).
Proof.
  intros H0 H1 H2 Hb. unfold Inspection.clean.
  rewrite read_csv_lines_width.
  - unfold set_columns, iloc_from. simpl. rewrite H0. reflexivity.
  - rewrite H0. repeat constructor; assumption.
Qed.

Lemma insert_params_schema (ticker : string) (row : line) :
  Insertion.insert_params ticker schema_columns row = Done (row_of ticker row).
Proof. reflexivity. Qed.

Lemma clean_columns (f : csv_file) (df : DataFrame) :
  Insertion.clean f = Done df -> columns df = schema_columns.
Proof.
  unfold Insertion.clean. destruct (read_csv_lines 2 f) as [d|e]; [|discriminate].
  unfold set_columns. destruct (Nat.eqb _ _); [|discriminate].
  intros [= <-]. reflexivity.
Qed.

End Cleaning.

(** ** Basic facts about the session *)

Section SessionFacts.
Variable tbl : table_decl.

Lemma for_each_app {A} (xs ys : list A) (body : A -> Exec unit) (w : world) :
  for_each (xs ++ ys) body w = (for_each xs body ;;; for_each ys body) w.
Proof.
  revert w. induction xs as [|x xs IH]; intros w; simpl.
  - reflexivity.
  - unfold bind. destruct (body x w) as [w1 [[]|e]]; [|reflexivity].
    rewrite IH. reflexivity.
Qed.

Lemma preserves_bind (P : world -> Prop) {A B} (c : Exec A) (k : A -> Exec B) :
  preserves P c -> (forall a, preserves P (k a)) -> preserves P (bind c k).
Proof.
  intros Hc Hk w w' o HP. unfold bind.
  destruct (c w) as [w1 [a|e]] eqn:Hrun.
  - intros Hrest. exact (Hk a _ _ _ (Hc _ _ _ HP Hrun) Hrest).
  - intros [= <- <-]. exact (Hc _ _ _ HP Hrun).
Qed.

Lemma preserves_pure (P : world -> Prop) {A} (c : Exec A) :
  (forall w, fst (c w) = w) -> preserves P c.
Proof.
  intros H w w' o HP Hrun. pose proof (H w) as Hw. rewrite Hrun in Hw.
  cbn [fst] in Hw. subst w'. exact HP.
Qed.

Lemma insert_row_schema (ticker : string) (l : line) (w : world) :
  Insertion.insert_row tbl ticker schema_columns l w
  = cursor_execute tbl (row_of ticker l) w.
Proof.
  unfold Insertion.insert_row, bind, lift. rewrite insert_params_schema.
  reflexivity.
Qed.

Lemma for_each_insert_row (ticker : string) (ls : list line) (w : world) :
  for_each ls (Insertion.insert_row tbl ticker schema_columns) w
  = for_each (map (row_of ticker) ls) (cursor_execute tbl) w.
Proof.
  revert w. induction ls as [|l ls IH]; intros w; simpl; [reflexivity|].
  unfold bind. rewrite insert_row_schema.
  destruct (cursor_execute tbl (row_of ticker l) w) as [w1 [[]|e]]; [|reflexivity].
  apply IH.
Qed.

Lemma cursor_execute_inv (r : db_row) (w w' : world) (o : outcome unit) :
  cursor_execute tbl r w = (w', o) ->
  files w' = files w /\ db_up w' = db_up w /\ committed w' = committed w
  /\ stdout w' = stdout w /\ issued w' = issued w ++ [StInsert r]
  /\ match o with
     | Done _ => pending w' = pending w ++ [r] /\ col_ok tbl r = true
     | Raised _ => pending w' = []
     end.
Proof.
  unfold cursor_execute.
  destruct (col_ok tbl r) eqn:Hok; simpl.
  - destruct (unique_key tbl && key_taken r w); intros [= <- <-]; simpl; auto 10.
  - intros [= <- <-]; simpl; auto 10.
Qed.

Lemma exec_rows_inv (rs : list db_row) :
  forall (w w' : world) (o : outcome unit),
    for_each rs (cursor_execute tbl) w = (w', o) ->
    files w' = files w /\ db_up w' = db_up w /\ committed w' = committed w
    /\ stdout w' = stdout w
    /\ exists sent,
        issued w' = issued w ++ map StInsert sent
        /\ match o with
           | Done _ =>
               sent = rs /\ pending w' = pending w ++ rs
               /\ Forall (fun r => col_ok tbl r = true) rs
           | Raised _ =>
               pending w' = []
               /\ exists pre r post, rs = pre ++ r :: post /\ sent = pre ++ [r]
           end.
Proof.
  induction rs as [|r rs IH]; intros w w' o; simpl.
  - unfold ret. intros [= <- <-]. repeat split; try reflexivity.
    exists []. simpl. rewrite !app_nil_r. auto.
  - unfold bind. destruct (cursor_execute tbl r w) as [w1 [[]|e]] eqn:Hr.
    + intros Hrest.
      destruct (cursor_execute_inv _ _ _ _ Hr) as (Hf & Hu & Hc & Hs & Hi & Hp & Hok).
      destruct (IH _ _ _ Hrest) as (Hf' & Hu' & Hc' & Hs' & sent & Hi' & Ho).
      repeat split; try congruence.
      exists (r :: sent). split.
      * rewrite Hi', Hi, <- app_assoc. reflexivity.
      * destruct o as [[]|e'].
        -- destruct Ho as (-> & Hp' & Hall). repeat split.
           ++ rewrite Hp', Hp, <- app_assoc. reflexivity.
           ++ constructor; assumption.
        -- destruct Ho as (Hp' & pre & r' & post & -> & ->). split; [assumption|].
           exists (r :: pre), r', post. split; reflexivity.
    + intros [= <- <-].
      destruct (cursor_execute_inv _ _ _ _ Hr) as (Hf & Hu & Hc & Hs & Hi & Hp).
      repeat split; try assumption.
      exists [r]. split; [assumption|]. split; [assumption|].
      exists [], r, rs. split; reflexivity.
Qed.

(** Without a key constraint, rows that fit the columns are all taken. *)
Lemma exec_rows_no_key (rs : list db_row) :
  unique_key tbl = false ->
  Forall (fun r => col_ok tbl r = true) rs ->
  forall w, exists w',
    for_each rs (cursor_execute tbl) w = (w', Done tt).
Proof.
  intros Hk Hall. induction Hall as [|r rs Hr _ IH]; intros w; simpl.
  - exists w. reflexivity.
  - unfold bind, cursor_execute at 1. rewrite Hr, Hk. simpl. apply IH.
Qed.

Lemma connect_up (w : world) :
  db_up w = true -> connect w = (with_txn (committed w) [] w, Done tt).
Proof. intros H. unfold connect. rewrite H. reflexivity. Qed.

End SessionFacts.

(** ** What one turn of the insert loop does *)

Section LoopFacts.
Variable tbl : table_decl.

Lemma insert_file_inv (bank ticker p : string) (f : csv_file)
    (w w' : world) (o : outcome unit) :
  files w !! p = Some f ->
  Insertion.insert_file tbl bank ticker p w = (w', o) ->
  files w' = files w /\ db_up w' = db_up w
  /\ match o with
     | Done _ =>
         committed w' = committed w ++ pending w ++ batch_of ticker f
         /\ pending w' = []
         /\ issued w' = issued w ++ map StInsert (batch_of ticker f) ++ [StCommit]
         /\ stdout w' = stdout w ++ [MsgInserted bank ticker]
         /\ Forall (fun r => col_ok tbl r = true) (batch_of ticker f)
     | Raised _ =>
         committed w' = committed w /\ stdout w' = stdout w
         /\ exists sent,
             issued w' = issued w ++ map StInsert sent
             /\ (sent = [] /\ pending w' = pending w
                 \/ pending w' = []
                    /\ exists pre r post,
                        batch_of ticker f = pre ++ r :: post /\ sent = pre ++ [r])
     end.
Proof.
  intros Hf. unfold Insertion.insert_file, batch_of, Insertion.clean.
  unfold bind at 1. unfold read_csv. rewrite Hf.
  destruct (read_csv_lines 2 f) as [df0|e0].
  2:{ intros [= <- <-]. repeat split; try reflexivity.
      exists []. simpl. rewrite app_nil_r. auto. }
  unfold bind at 1. unfold lift, set_columns.
  destruct (Nat.eqb _ _).
  2:{ intros [= <- <-]. repeat split; try reflexivity.
      exists []. simpl. rewrite app_nil_r. auto. }
  cbn [columns rows]. unfold bind at 1. rewrite for_each_insert_row.
  destruct (for_each (map (row_of ticker) (rows df0)) (cursor_execute tbl) w)
    as [w1 [[]|e1]] eqn:Hrows.
  - destruct (exec_rows_inv tbl _ _ _ _ Hrows)
      as (Hf1 & Hu1 & Hc1 & Hs1 & sent & Hi1 & -> & Hp1 & Hall).
    unfold bind, conn_commit, print. intros [= <- <-]. simpl.
    rewrite Hf1, Hu1, Hc1, Hs1, Hi1, Hp1, <- !app_assoc. auto 10.
  - destruct (exec_rows_inv tbl _ _ _ _ Hrows)
      as (Hf1 & Hu1 & Hc1 & Hs1 & sent & Hi1 & Hp1 & Hsplit).
    intros [= <- <-]. repeat split; try assumption.
    exists sent. split; [assumption|]. right. split; assumption.
Qed.

Lemma insert_bank_absent (bank ticker : string) (w : world) :
  files w !! Insertion.file_path bank = None ->
  Insertion.insert_bank tbl (bank, ticker) w = (w, Done tt).
Proof.
  intros Hf. unfold Insertion.insert_bank, bind, path_exists.
  rewrite Hf.
  rewrite bool_decide_eq_false_2; [reflexivity|].
  intros [x Hx]. discriminate.
Qed.

Lemma insert_bank_present (bank ticker : string) (f : csv_file) (w : world) :
  files w !! Insertion.file_path bank = Some f ->
  Insertion.insert_bank tbl (bank, ticker) w
  = Insertion.insert_file tbl bank ticker (Insertion.file_path bank) w.
Proof.
  intros Hf. unfold Insertion.insert_bank, bind, path_exists.
  rewrite Hf.
  rewrite bool_decide_eq_true_2; [reflexivity|]. eexists; reflexivity.
Qed.

(** A turn that raises leaves the committed rows and the output alone and
    issues no commit. *)
Lemma insert_bank_raised (bt : string * string) (w w' : world) (e : exn) :
  Insertion.insert_bank tbl bt w = (w', Raised e) ->
  files w' = files w /\ db_up w' = db_up w
  /\ committed w' = committed w /\ stdout w' = stdout w
  /\ exists sent, issued w' = issued w ++ map StInsert sent.
Proof.
  destruct bt as [bank ticker].
  destruct (files w !! Insertion.file_path bank) as [f|] eqn:Hf.
  - rewrite (insert_bank_present _ _ _ _ Hf). intros H.
    destruct (insert_file_inv _ _ _ _ _ _ _ Hf H)
      as (Hfs & Hu & Hc & Hs & sent & Hi & _).
    repeat split; try assumption. exists sent; assumption.
  - rewrite (insert_bank_absent _ _ _ Hf). discriminate.
Qed.

(** A turn that finishes has committed what it inserted. *)
Lemma insert_bank_done (bt : string * string) (w w' : world) :
  Insertion.insert_bank tbl bt w = (w', Done tt) ->
  files w' = files w /\ db_up w' = db_up w
  /\ match files w !! Insertion.file_path (fst bt) with
     | None => w' = w
     | Some f =>
         committed w' = committed w ++ pending w ++ batch_of (snd bt) f
         /\ pending w' = []
         /\ issued w' = issued w ++ map StInsert (batch_of (snd bt) f) ++ [StCommit]
         /\ stdout w' = stdout w ++ [inserted_message bt]
         /\ Forall (fun r => col_ok tbl r = true) (batch_of (snd bt) f)
     end.
Proof.
  destruct bt as [bank ticker]. cbn [fst snd].
  destruct (files w !! Insertion.file_path bank) as [f|] eqn:Hf.
  - rewrite (insert_bank_present _ _ _ _ Hf). intros H.
    destruct (insert_file_inv _ _ _ _ _ _ _ Hf H) as (Hfs & Hu & Hrest).
    split; [assumption|]. split; [assumption|]. exact Hrest.
  - rewrite (insert_bank_absent _ _ _ Hf). intros [= <-]. auto.
Qed.

End LoopFacts.

(** ** Header rows and coercion (claims C3 and C4) *)

(** C3, counterexample: on a file without the two extra header rows both
    cleaning cells still drop two rows, here the first two bars, where
    inspecting the rows finds no header artifact and keeps all four. *)
Lemma header_rows_not_inspected :
  Insertion.clean Scenario.flat_file
  = Done (mkFrame schema_columns (skipn 2 (map Scraping.bar_line Scenario.td_bars)))
  /\ Inspection.clean Scenario.flat_file
     = Done (mkFrame schema_columns (skipn 2 (map Scraping.bar_line Scenario.td_bars)))
  /\ Canonical.normalize_price_table (raw_table Scenario.flat_file)
     = (map Scraping.bar_line Scenario.td_bars, 0)
  /\ ~ (forall f df, Insertion.clean f = Done df ->
          rows df = fst (Canonical.normalize_price_table (raw_table f))).
Proof.
  split; [reflexivity|]. split; [reflexivity|]. split; [vm_compute; reflexivity|].
  intros H. specialize (H Scenario.flat_file _ eq_refl). vm_compute in H. discriminate H.
Qed.

(** C3, as amended: both cleaning cells drop the first two rows of the raw
    table by position, whatever they hold; for a raw table of two rows
    followed by N rows of six fields they yield exactly those N rows, none
    left out. *)
Theorem first_two_rows_dropped_by_position (l0 l1 l2 : line) (body : list line) :
  length l0 = 6 -> length l1 = 6 -> length l2 = 6 ->
  Forall (fun r : line => length r = 6) body ->
  raw_table (l0 :: l1 :: l2 :: body) = l1 :: l2 :: body
  /\ Insertion.clean (l0 :: l1 :: l2 :: body) = Done (mkFrame schema_columns body)
  /\ Inspection.clean (l0 :: l1 :: l2 :: body) = Done (mkFrame schema_columns body)
  /\ length (rows (mkFrame schema_columns body)) = length body.
Proof.
  intros H0 H1 H2 Hb. split; [reflexivity|]. split.
  - apply insertion_clean_drops; assumption.
  - split; [apply inspection_clean_drops; assumption | reflexivity].
Qed.

Lemma first_two_rows_dropped_by_position_witness :
  Insertion.clean (Scraping.to_csv "TD.TO" Scenario.td_bars)
  = Done (mkFrame schema_columns (map Scraping.bar_line Scenario.td_bars))
  /\ Inspection.clean (Scraping.to_csv "TD.TO" Scenario.td_bars)
     = Done (mkFrame schema_columns (map Scraping.bar_line Scenario.td_bars))
  /\ length (map Scraping.bar_line Scenario.td_bars) = 4.
Proof.
  destruct (first_two_rows_dropped_by_position
              ["Price"; "Close"; "High"; "Low"; "Open"; "Volume"]
              ("Ticker" :: repeat "TD.TO" 5)
              ["Date"; ""; ""; ""; ""; ""]
              (map Scraping.bar_line Scenario.td_bars))
    as (_ & Hi & Hc & _).
  - reflexivity.
  - reflexivity.
  - reflexivity.
  - repeat constructor.
  - split; [exact Hi|]. split; [exact Hc | reflexivity].
Defined.

(** C4, counterexample: a row whose date is not a date is emitted like any
    other and is the second row of the batch; the normalizer of the
    specification leaves it out and counts it. *)
Lemma unparsable_row_is_emitted :
  Insertion.clean Scenario.mixed_file
  = Done (mkFrame schema_columns (map Scraping.bar_line Scenario.mixed_bars))
  /\ Canonical.canonical_line (Scraping.bar_line Scenario.bad_bar) = false
  /\ nth_error (batch_of "TD.TO" Scenario.mixed_file) 1
     = Some (mkRow "TD.TO" "not-a-date" "57.7" "58.0" "57.5" "57.9" "2207900")
  /\ Canonical.normalize_price_table (raw_table Scenario.mixed_file)
     = (map Scraping.bar_line Scenario.td_bars, 1)
  /\ ~ (forall f df, Insertion.clean f = Done df ->
          forallb Canonical.canonical_line (rows df) = true).
Proof.
  split; [reflexivity|]. split; [vm_compute; reflexivity|].
  split; [reflexivity|]. split; [vm_compute; reflexivity|].
  intros H. specialize (H Scenario.mixed_file _ eq_refl). vm_compute in H. discriminate H.
Qed.

(** ** Persisting one file (claims C1, C4, C6 and C8) *)

Section Persisting.
Variable tbl : table_decl.

Lemma insert_file_clean (bank ticker p : string) (f : csv_file) (df : DataFrame)
    (w : world) :
  files w !! p = Some f ->
  Insertion.clean f = Done df ->
  Insertion.insert_file tbl bank ticker p w
  = (for_each (map (row_of ticker) (rows df)) (cursor_execute tbl) ;;;
     conn_commit ;;; print (MsgInserted bank ticker)) w.
Proof.
  intros Hf Hc. pose proof (clean_columns _ _ Hc) as Hcols.
  unfold Insertion.insert_file. unfold bind at 1. unfold read_csv. rewrite Hf.
  unfold Insertion.clean in Hc.
  destruct (read_csv_lines 2 f) as [df0|e0]; [|discriminate].
  unfold bind at 1. unfold lift. rewrite Hc, Hcols.
  unfold bind at 1 3. rewrite for_each_insert_row. reflexivity.
Qed.

Lemma batch_of_clean (ticker : string) (f : csv_file) (r : db_row)
    (rest : list db_row) :
  batch_of ticker f = r :: rest ->
  exists df, Insertion.clean f = Done df
             /\ map (row_of ticker) (rows df) = r :: rest.
Proof.
  unfold batch_of. destruct (Insertion.clean f) as [df|e]; [|discriminate].
  intros H. exists df. split; [reflexivity | exact H].
Qed.

(** The only exceptions of an insert are the refusals of the server. *)
Lemma cursor_execute_refusal (r : db_row) (w w' : world) (e : exn) :
  cursor_execute tbl r w = (w', Raised e) ->
  e = DataError (stock_ticker r) (date r)
  \/ e = UniqueViolation (stock_ticker r) (date r).
Proof.
  unfold cursor_execute. destruct (col_ok tbl r); cbn [negb].
  - destruct (unique_key tbl && key_taken r w); [|discriminate].
    intros [= _ <-]. right. reflexivity.
  - intros [= _ <-]. left. reflexivity.
Qed.

Lemma exec_rows_refusal (rs : list db_row) :
  forall (w w' : world) (e : exn),
    for_each rs (cursor_execute tbl) w = (w', Raised e) ->
    exists r, In r rs
              /\ (e = DataError (stock_ticker r) (date r)
                  \/ e = UniqueViolation (stock_ticker r) (date r)).
Proof.
  induction rs as [|r rs IH]; intros w w' e; cbn [for_each].
  - discriminate.
  - unfold bind. destruct (cursor_execute tbl r w) as [w1 [[]|e1]] eqn:Hr.
    + intros Hrest. destruct (IH _ _ _ Hrest) as (r' & Hin & He).
      exists r'. split; [right; exact Hin | exact He].
    + intros [= <- <-]. exists r. split; [left; reflexivity|].
      exact (cursor_execute_refusal _ _ _ _ Hr).
Qed.

End Persisting.

(** C4, as amended: the cleaning rejects nothing and counts nothing.  When
    the third line of the file and the lines after it have six fields, the
    cleaning succeeds, whatever the fields hold, with one row for each line
    after the third, and the batch sent to the insert has one row per line.
    A turn over such a file either sends and commits them all or ends on a
    row the server refuses: no row is left out on the way. *)
Theorem no_row_is_rejected (tbl : table_decl) (bank ticker : string)
    (l0 l1 l2 : line) (body : list line) (w : world) :
  length l2 = 6 ->
  Forall (fun r : line => length r = 6) body ->
  files w !! Insertion.file_path bank = Some (l0 :: l1 :: l2 :: body) ->
  (exists df,
     Insertion.clean (l0 :: l1 :: l2 :: body) = Done df
     /\ length (rows df) = length body)
  /\ length (batch_of ticker (l0 :: l1 :: l2 :: body)) = length body
  /\ forall w' o,
       Insertion.insert_bank tbl (bank, ticker) w = (w', o) ->
       match o with
       | Done _ =>
           length (issued w') = length (issued w) + length body + 1
           /\ length (committed w')
              = length (committed w) + length (pending w) + length body
       | Raised e =>
           exists r, In r (batch_of ticker (l0 :: l1 :: l2 :: body))
                     /\ (e = DataError (stock_ticker r) (date r)
                         \/ e = UniqueViolation (stock_ticker r) (date r))
       end.
Proof.
  intros H2 Hb Hf.
  pose proof (insertion_clean_drops l0 l1 l2 body H2 Hb) as Hc.
  assert (Hbatch : batch_of ticker (l0 :: l1 :: l2 :: body) = map (row_of ticker) body)
    by (unfold batch_of; rewrite Hc; reflexivity).
  split; [exists (mkFrame schema_columns body); split; [exact Hc | reflexivity]|].
  split; [rewrite Hbatch; apply length_map|].
  intros w' o Hrun. rewrite (insert_bank_present tbl _ _ _ _ Hf) in Hrun.
  destruct o as [[]|e].
  - destruct (insert_file_inv tbl _ _ _ _ _ _ _ Hf Hrun)
      as (_ & _ & Hc' & _ & Hi & _).
    rewrite Hc', Hi, Hbatch, !length_app, !length_map. cbn [length].
    split; [rewrite Nat.add_assoc | rewrite Nat.add_assoc]; reflexivity.
  - rewrite (insert_file_clean tbl _ _ _ _ _ _ Hf Hc) in Hrun.
    cbn [rows] in Hrun. rewrite Hbatch. unfold bind at 1 in Hrun.
    destruct (for_each (map (row_of ticker) body) (cursor_execute tbl) w)
      as [w1 [[]|e1]] eqn:Hrows.
    + unfold bind, conn_commit, print in Hrun. discriminate Hrun.
    + injection Hrun as _ <-. exact (exec_rows_refusal tbl _ _ _ _ Hrows).
Qed.

Lemma no_row_is_rejected_witness :
  length (batch_of "TD.TO" Scenario.mixed_file) = 5
  /\ exists r, In r (batch_of "TD.TO" Scenario.mixed_file)
               /\ snd (Insertion.insert_bank Canonical.stock_prices ("TD", "TD.TO")
                         Scenario.td_mixed_bns_sound)
                  = Raised (DataError (stock_ticker r) (date r)).
Proof.
  destruct (no_row_is_rejected Canonical.stock_prices "TD" "TD.TO"
              ["Price"; "Close"; "High"; "Low"; "Open"; "Volume"]
              ("Ticker" :: repeat "TD.TO" 5)
              ["Date"; ""; ""; ""; ""; ""]
              (map Scraping.bar_line Scenario.mixed_bars)
              Scenario.td_mixed_bns_sound)
    as (_ & Hlen & Hrun).
  - reflexivity.
  - repeat constructor.
  - vm_compute. reflexivity.
  - split; [exact Hlen|].
    destruct (Hrun (fst (Insertion.insert_bank Canonical.stock_prices ("TD", "TD.TO")
                           Scenario.td_mixed_bns_sound))
                   (Raised (DataError "TD.TO" "not-a-date")))
      as (r & Hin & [He|He]).
    + vm_compute. reflexivity.
    + exists r. split; [exact Hin|]. rewrite <- He. vm_compute. reflexivity.
    + discriminate He.
Defined.

(** C1, counterexample: TD's four bars persisted twice.  Under the table of
    the specification the second run raises on the first row; without the
    key constraint it stores the four rows again, so that keys repeat. *)
Lemma second_persist_differs :
  (let w1 := fst (Insertion.insert_cell Canonical.stock_prices Scenario.td_only) in
   let w2 := fst (Insertion.insert_cell Canonical.stock_prices w1) in
   committed w1 = Scenario.td_rows
   /\ stdout w2 = [MsgInserted "TD" "TD.TO";
                   MsgError (UniqueViolation "TD.TO" "2020-01-02")])
  /\ (let v1 := fst (Insertion.insert_cell Canonical.stock_prices_no_key Scenario.td_only) in
      let v2 := fst (Insertion.insert_cell Canonical.stock_prices_no_key v1) in
      committed v1 = Scenario.td_rows
      /\ committed v2 = Scenario.td_rows ++ Scenario.td_rows
      /\ ~ NoDup (map key_of (committed v2))).
Proof.
  split.
  - split; vm_compute; reflexivity.
  - split; [vm_compute; reflexivity|]. split; [vm_compute; reflexivity|].
    intros H.
    assert (Hb : bool_decide
                   (NoDup (map key_of (committed
                      (fst (Insertion.insert_cell Canonical.stock_prices_no_key
                         (fst (Insertion.insert_cell Canonical.stock_prices_no_key
                                 Scenario.td_only))))))) = true)
      by (apply bool_decide_eq_true_2; exact H).
    vm_compute in Hb. discriminate Hb.
Qed.

(** C1, as amended: persisting the same non-empty batch again is not
    idempotent.  Where the table declares (stock_ticker, date) unique, the
    second persist raises a uniqueness violation on its first row and the
    stored rows stay as the first persist left them; where it does not, the
    second persist succeeds and stores every row of the batch once more. *)
Theorem second_persist_raises_or_duplicates (tbl : table_decl)
    (bank ticker : string) (f : csv_file) (r : db_row) (rest : list db_row)
    (w w1 : world) :
  files w !! Insertion.file_path bank = Some f ->
  batch_of ticker f = r :: rest ->
  Insertion.insert_bank tbl (bank, ticker) w = (w1, Done tt) ->
  committed w1 = committed w ++ pending w ++ batch_of ticker f
  /\ (unique_key tbl = true ->
      exists w2,
        Insertion.insert_bank tbl (bank, ticker) w1
        = (w2, Raised (UniqueViolation (stock_ticker r) (date r)))
        /\ committed w2 = committed w1)
  /\ (unique_key tbl = false ->
      exists w2,
        Insertion.insert_bank tbl (bank, ticker) w1 = (w2, Done tt)
        /\ committed w2 = committed w1 ++ batch_of ticker f).
Proof.
  intros Hf Hb Hrun.
  destruct (insert_bank_done tbl _ _ _ Hrun) as (Hfs & Hu & Hd).
  cbn [fst snd] in Hd. rewrite Hf in Hd.
  destruct Hd as (Hc & Hp & Hi & Hs & Hall).
  assert (Hf1 : files w1 !! Insertion.file_path bank = Some f)
    by (rewrite Hfs; exact Hf).
  destruct (batch_of_clean _ _ _ _ Hb) as (df & Hclean & Hrows).
  split; [exact Hc|]. split.
  - intros Hk.
    rewrite (insert_bank_present tbl _ _ _ _ Hf1).
    rewrite (insert_file_clean tbl _ _ _ _ _ _ Hf1 Hclean), Hrows.
    rewrite Hb in Hall. inversion Hall as [|? ? Hr _]; subst.
    cbn [for_each]. unfold bind, cursor_execute. rewrite Hr, Hk. cbn [negb andb].
    assert (Ht : key_taken r w1 = true).
    { unfold key_taken. apply bool_decide_eq_true_2.
      apply list_elem_of_In, in_map, in_or_app. left.
      rewrite Hc, Hb. apply in_or_app. right. apply in_or_app. right.
      left. reflexivity. }
    rewrite Ht. eexists. split; reflexivity.
  - intros Hk.
    rewrite (insert_bank_present tbl _ _ _ _ Hf1).
    rewrite (insert_file_clean tbl _ _ _ _ _ _ Hf1 Hclean), Hrows, <- Hb.
    destruct (exec_rows_no_key tbl _ Hk Hall w1) as (w' & Hex).
    destruct (exec_rows_inv tbl _ _ _ _ Hex)
      as (Hf' & Hu' & Hc' & Hs' & sent & Hi' & _ & Hp' & _).
    unfold bind at 1. rewrite Hex.
    unfold bind, conn_commit, print. eexists. split; [reflexivity|].
    simpl. rewrite Hc', Hp', Hp. reflexivity.
Qed.

Lemma second_persist_raises_or_duplicates_witness :
  exists w2,
    Insertion.insert_bank Canonical.stock_prices ("TD", "TD.TO")
      (fst (Insertion.insert_bank Canonical.stock_prices ("TD", "TD.TO")
              Scenario.td_only))
    = (w2, Raised (UniqueViolation "TD.TO" "2020-01-02"))
    /\ committed w2 = Scenario.td_rows.
Proof.
  destruct (second_persist_raises_or_duplicates Canonical.stock_prices
              "TD" "TD.TO" (Scraping.to_csv "TD.TO" Scenario.td_bars)
              (mkRow "TD.TO" "2020-01-02" "57.78106587137342" "57.99416701667758"
                     "57.560076551433816" "57.946807861328125" "2207900")
              (tl Scenario.td_rows)
              Scenario.td_only
              (fst (Insertion.insert_bank Canonical.stock_prices ("TD", "TD.TO")
                      Scenario.td_only)))
    as (_ & Hkey & _).
  - vm_compute. reflexivity.
  - vm_compute. reflexivity.
  - vm_compute. reflexivity.
  - destruct (Hkey eq_refl) as (w2 & Hrun & Hc).
    exists w2. split; [exact Hrun|]. rewrite Hc. vm_compute. reflexivity.
Defined.

(** C6, counterexample: the second row of TD's batch is refused; the third
    row, which fits the table, is never sent and nothing of the batch is
    stored. *)
Lemma bad_row_stops_its_batch :
  let w' := fst (Insertion.insert_cell Canonical.stock_prices
                   (Scenario.world_of
                      {[ Insertion.file_path "TD" := Scenario.mixed_file ]})) in
  let third := mkRow "TD.TO" "2020-01-03" "57.67844009831924" "57.94678243435267"
                     "57.54426893030253" "57.89942932128906" "3472900" in
  nth_error (batch_of "TD.TO" Scenario.mixed_file) 2 = Some third
  /\ col_ok Canonical.stock_prices third = true
  /\ length (issued w') = 2
  /\ ~ In (StInsert third) (issued w')
  /\ committed w' = []
  /\ stdout w' = [MsgError (DataError "TD.TO" "not-a-date")].
Proof.
  cbv zeta. split; [reflexivity|]. split; [vm_compute; reflexivity|].
  split; [vm_compute; reflexivity|]. split.
  - intros H.
    apply (proj2 (list_elem_of_In _ _)) in H.
    apply (bool_decide_eq_true_2 _) in H. vm_compute in H. discriminate H.
  - split; vm_compute; reflexivity.
Qed.

(** C6, as amended: a row the server refuses ends the batch and the run.
    The rows before it were sent but are not committed, the rows after it
    are never sent, and no success line is printed for the ticker. *)
Theorem refused_row_aborts_batch (tbl : table_decl) (bank ticker : string)
    (f : csv_file) (df : DataFrame) (pre post : list line) (l : line)
    (w w1 w2 : world) (e : exn) :
  files w !! Insertion.file_path bank = Some f ->
  Insertion.clean f = Done df ->
  rows df = pre ++ l :: post ->
  for_each pre (Insertion.insert_row tbl ticker (columns df)) w = (w1, Done tt) ->
  Insertion.insert_row tbl ticker (columns df) l w1 = (w2, Raised e) ->
  Insertion.insert_bank tbl (bank, ticker) w = (w2, Raised e)
  /\ issued w2 = issued w ++ map StInsert (map (row_of ticker) (pre ++ [l]))
  /\ committed w2 = committed w
  /\ pending w2 = []
  /\ stdout w2 = stdout w.
Proof.
  intros Hf Hc Hrows Hpre Hl.
  rewrite (clean_columns _ _ Hc) in Hpre, Hl.
  rewrite for_each_insert_row in Hpre. rewrite insert_row_schema in Hl.
  assert (Hall : for_each (map (row_of ticker) (pre ++ l :: post))
                   (cursor_execute tbl) w = (w2, Raised e)).
  { rewrite map_app, for_each_app. unfold bind at 1. rewrite Hpre.
    cbn [map for_each]. unfold bind at 1. rewrite Hl. reflexivity. }
  split.
  - rewrite (insert_bank_present tbl _ _ _ _ Hf).
    rewrite (insert_file_clean tbl _ _ _ _ _ _ Hf Hc), Hrows.
    unfold bind at 1. rewrite Hall. reflexivity.
  - destruct (exec_rows_inv tbl _ _ _ _ Hpre)
      as (_ & _ & Hc1 & Hs1 & sent & Hi1 & -> & _ & _).
    destruct (cursor_execute_inv tbl _ _ _ _ Hl) as (_ & _ & Hc2 & Hs2 & Hi2 & Hp2).
    repeat split.
    + rewrite Hi2, Hi1, !map_app, <- app_assoc. reflexivity.
    + congruence.
    + exact Hp2.
    + congruence.
Qed.

Lemma refused_row_aborts_batch_witness :
  exists w2,
    Insertion.insert_bank Canonical.stock_prices ("TD", "TD.TO")
      (Scenario.world_of {[ Insertion.file_path "TD" := Scenario.mixed_file ]})
    = (w2, Raised (DataError "TD.TO" "not-a-date"))
    /\ length (issued w2) = 2 /\ committed w2 = [] /\ pending w2 = [].
Proof.
  pose (w := Scenario.world_of {[ Insertion.file_path "TD" := Scenario.mixed_file ]}).
  pose (cols := schema_columns).
  pose (w1 := fst (for_each (map Scraping.bar_line (firstn 1 Scenario.td_bars))
                     (Insertion.insert_row Canonical.stock_prices "TD.TO" cols) w)).
  pose (w2 := fst (Insertion.insert_row Canonical.stock_prices "TD.TO" cols
                     (Scraping.bar_line Scenario.bad_bar) w1)).
  destruct (refused_row_aborts_batch Canonical.stock_prices "TD" "TD.TO"
              Scenario.mixed_file
              (mkFrame schema_columns (map Scraping.bar_line Scenario.mixed_bars))
              (map Scraping.bar_line (firstn 1 Scenario.td_bars))
              (map Scraping.bar_line (skipn 1 Scenario.td_bars))
              (Scraping.bar_line Scenario.bad_bar)
              w w1 w2 (DataError "TD.TO" "not-a-date"))
    as (Hrun & Hi & Hc & Hp & _).
  - vm_compute. reflexivity.
  - reflexivity.
  - reflexivity.
  - vm_compute. reflexivity.
  - vm_compute. reflexivity.
  - exists w2. split; [exact Hrun|]. split; [rewrite Hi; reflexivity|].
    split; [rewrite Hc; reflexivity | exact Hp].
Defined.

(** C8: a turn of the loop that fails leaves the committed rows, those of
    every other ticker among them, exactly as they were, sends no commit and
    keeps none of the rows it had inserted; a turn that finishes has sent
    the commit as its last statement, after the insert of every row of the
    file. *)
Theorem failed_batch_is_not_committed (tbl : table_decl) (bank ticker : string)
    (f : csv_file) (w w' : world) (o : outcome unit) :
  files w !! Insertion.file_path bank = Some f ->
  pending w = [] ->
  Insertion.insert_bank tbl (bank, ticker) w = (w', o) ->
  match o with
  | Raised _ =>
      committed w' = committed w
      /\ (forall B, rows_of_ticker B (committed w') = rows_of_ticker B (committed w))
      /\ pending w' = []
      /\ exists sent, issued w' = issued w ++ map StInsert sent
  | Done _ =>
      issued w' = issued w ++ map StInsert (batch_of ticker f) ++ [StCommit]
      /\ committed w' = committed w ++ batch_of ticker f
      /\ pending w' = []
  end.
Proof.
  intros Hf Hp. rewrite (insert_bank_present tbl _ _ _ _ Hf). intros Hrun.
  destruct (insert_file_inv tbl _ _ _ _ _ _ _ Hf Hrun) as (_ & _ & Hres).
  destruct o as [[]|e].
  - destruct Hres as (Hc & Hp' & Hi & _ & _).
    rewrite Hp in Hc. simpl in Hc. auto.
  - destruct Hres as (Hc & _ & sent & Hi & Hcase).
    split; [exact Hc|]. split; [intros B; rewrite Hc; reflexivity|].
    split; [|exists sent; exact Hi].
    destruct Hcase as [[_ Hp']|[Hp' _]]; congruence.
Qed.

Lemma failed_batch_is_not_committed_witness :
  let w := fst (Insertion.insert_bank Canonical.stock_prices ("Scotiabank", "BNS.TO")
                  Scenario.td_mixed_bns_sound) in
  let w' := fst (Insertion.insert_bank Canonical.stock_prices ("TD", "TD.TO") w) in
  committed w = Scenario.bns_rows
  /\ committed w' = Scenario.bns_rows
  /\ rows_of_ticker "TD.TO" (committed w') = []
  /\ pending w' = [].
Proof.
  cbv zeta.
  pose (w := fst (Insertion.insert_bank Canonical.stock_prices ("Scotiabank", "BNS.TO")
                    Scenario.td_mixed_bns_sound)).
  pose proof (failed_batch_is_not_committed Canonical.stock_prices "TD" "TD.TO"
                Scenario.mixed_file w
                (fst (Insertion.insert_bank Canonical.stock_prices ("TD", "TD.TO") w))
                (Raised (DataError "TD.TO" "not-a-date"))) as H.
  cbv beta iota in H.
  destruct H as (Hc & Hb & Hp & _).
  - vm_compute. reflexivity.
  - vm_compute. reflexivity.
  - vm_compute. reflexivity.
  - fold w. split; [vm_compute; reflexivity|].
    split; [rewrite Hc; vm_compute; reflexivity|].
    split; [rewrite Hb; vm_compute; reflexivity | exact Hp].
Defined.

(** ** The loop over the tickers (claims C2, C7 and C10) *)

Section WholeLoop.
Variable tbl : table_decl.

Lemma has_file_files (w w' : world) (bt : string * string) :
  files w' = files w -> has_file w' bt = has_file w bt.
Proof. intros H. unfold has_file. rewrite H. reflexivity. Qed.

Lemma insert_bank_stdout (bt : string * string) (w w' : world) :
  Insertion.insert_bank tbl bt w = (w', Done tt) ->
  stdout w' = stdout w ++ map inserted_message (filter (has_file w) [bt]).
Proof.
  intros H. destruct (insert_bank_done tbl _ _ _ H) as (_ & _ & Hd).
  rewrite filter_cons, filter_nil.
  destruct (files w !! Insertion.file_path (fst bt)) as [f|] eqn:Hf.
  - destruct Hd as (_ & _ & _ & Hs & _).
    destruct (decide (has_file w bt)) as [_|Hn]; [exact Hs|].
    exfalso. apply Hn. unfold has_file. rewrite Hf.
    apply bool_decide_pack. eexists; reflexivity.
  - subst w'.
    destruct (decide (has_file w bt)) as [Ht|_];
      [|simpl; rewrite app_nil_r; reflexivity].
    exfalso. unfold has_file in Ht. rewrite Hf in Ht.
    apply bool_decide_unpack in Ht. destruct Ht as [x Hx]. discriminate.
Qed.

(** The output of the loop: a success line per ticker with a file, up to
    the ticker that raises. *)
Lemma insert_loop_stdout (tickers : list (string * string)) :
  forall (w w' : world) (o : outcome unit),
    Insertion.insert_loop tbl tickers w = (w', o) ->
    files w' = files w /\ db_up w' = db_up w
    /\ exists pre post,
        tickers = pre ++ post
        /\ stdout w' = stdout w ++ map inserted_message (filter (has_file w) pre)
        /\ match o with
           | Done _ => post = []
           | Raised _ => post <> []
           end.
Proof.
  unfold Insertion.insert_loop.
  induction tickers as [|bt tickers IH]; intros w w' o; simpl.
  - unfold ret. intros [= <- <-]. repeat split.
    exists [], []. simpl. rewrite app_nil_r. auto.
  - unfold bind.
    destruct (Insertion.insert_bank tbl bt w) as [w1 [[]|e]] eqn:Hb.
    + intros Hrest.
      destruct (insert_bank_done tbl _ _ _ Hb) as (Hf & Hu & _).
      pose proof (insert_bank_stdout _ _ _ Hb) as Hs.
      destruct (IH _ _ _ Hrest) as (Hf' & Hu' & pre & post & -> & Hs' & Ho).
      split; [congruence|]. split; [congruence|].
      exists (bt :: pre), post. split; [reflexivity|]. split; [|exact Ho].
      rewrite Hs', Hs. change (bt :: pre) with ([bt] ++ pre).
      rewrite filter_app, map_app, <- app_assoc. do 3 f_equal.
      apply list_filter_iff. intros x. rewrite (has_file_files _ _ x Hf).
      reflexivity.
    + intros [= <- <-].
      destruct (insert_bank_raised tbl _ _ _ _ Hb) as (Hf & Hu & _ & Hs & _).
      split; [exact Hf|]. split; [exact Hu|].
      exists [], (bt :: tickers). simpl. rewrite app_nil_r.
      split; [reflexivity|]. split; [exact Hs | discriminate].
Qed.

Lemma batch_of_ticker (ticker : string) (f : csv_file) :
  Forall (fun r => stock_ticker r = ticker) (batch_of ticker f).
Proof.
  unfold batch_of. destruct (Insertion.clean f) as [df|e]; [|constructor].
  induction (rows df) as [|l ls IH]; simpl; constructor; [reflexivity | exact IH].
Qed.

(** What the loop adds to the committed rows carries the symbol of one of
    its tickers. *)
Lemma insert_loop_committed (tickers : list (string * string)) :
  forall (w w' : world) (o : outcome unit),
    Insertion.insert_loop tbl tickers w = (w', o) ->
    exists new,
      committed w' = committed w ++ new
      /\ Forall (fun r => In r (pending w) \/ In (stock_ticker r) (map snd tickers)) new.
Proof.
  unfold Insertion.insert_loop.
  induction tickers as [|bt tickers IH]; intros w w' o; simpl.
  - unfold ret. intros [= <- <-]. exists []. rewrite app_nil_r. split; constructor.
  - unfold bind.
    destruct (Insertion.insert_bank tbl bt w) as [w1 [[]|e]] eqn:Hb.
    + intros Hrest. destruct (IH _ _ _ Hrest) as (new' & Hc' & Hall').
      destruct (insert_bank_done tbl _ _ _ Hb) as (_ & _ & Hd).
      destruct (files w !! Insertion.file_path (fst bt)) as [f|].
      * destruct Hd as (Hc & Hp & _).
        exists (pending w ++ batch_of (snd bt) f ++ new'). split.
        -- rewrite Hc', Hc, <- !app_assoc. reflexivity.
        -- rewrite Hp in Hall'. apply Forall_app. split.
           ++ apply Forall_forall. intros r Hr. left.
              apply (proj1 (list_elem_of_In (pending w) r)). exact Hr.
           ++ apply Forall_app. split.
              ** eapply Forall_impl; [apply batch_of_ticker|].
                 intros r Hr. simpl in Hr. right. left. symmetry. exact Hr.
              ** eapply Forall_impl; [exact Hall'|].
                 intros r [[]|Hr]. right. right. exact Hr.
      * subst w1. exists new'. split; [exact Hc'|].
        eapply Forall_impl; [exact Hall'|].
        intros r [Hr|Hr]; [left; exact Hr | right; right; exact Hr].
    + intros [= <- <-].
      destruct (insert_bank_raised tbl _ _ _ _ Hb) as (_ & _ & Hc & _).
      exists []. rewrite app_nil_r. split; [exact Hc | constructor].
Qed.

Lemma batches_files (w w' : world) (tickers : list (string * string)) :
  files w' = files w -> batches w' tickers = batches w tickers.
Proof. intros H. unfold batches. rewrite H. reflexivity. Qed.

Lemma filter_has_file_files (w w' : world) (tickers : list (string * string)) :
  files w' = files w -> filter (has_file w') tickers = filter (has_file w) tickers.
Proof.
  intros H. apply list_filter_iff. intros x.
  rewrite (has_file_files w w' x H). reflexivity.
Qed.

(** A loop that finishes has printed one success line per file found and
    stored the batches of those files, in the order of the catalog. *)
Lemma insert_loop_finished (tickers : list (string * string)) :
  forall (w w' : world),
    pending w = [] ->
    Insertion.insert_loop tbl tickers w = (w', Done tt) ->
    files w' = files w /\ pending w' = []
    /\ stdout w' = stdout w ++ map inserted_message (filter (has_file w) tickers)
    /\ committed w' = committed w ++ batches w tickers.
Proof.
  unfold Insertion.insert_loop.
  induction tickers as [|bt tickers IH]; intros w w' Hp; cbn [for_each].
  - unfold ret. intros [= <-]. cbn. rewrite !app_nil_r. auto.
  - unfold bind.
    destruct (Insertion.insert_bank tbl bt w) as [w1 [[]|e]] eqn:Hb; [|discriminate].
    intros Hrest.
    destruct (insert_bank_done tbl _ _ _ Hb) as (Hf & _ & Hd).
    pose proof (insert_bank_stdout _ _ _ Hb) as Hs.
    assert (Hturn : pending w1 = []
                    /\ committed w1 = committed w ++ batches w [bt]).
    { unfold batches. cbn [flat_map]. rewrite app_nil_r.
      destruct (files w !! Insertion.file_path (fst bt)) as [f|].
      - destruct Hd as (Hc & Hp1 & _). rewrite Hc, Hp. auto.
      - subst w1. rewrite app_nil_r. auto. }
    destruct Hturn as (Hp1 & Hc1).
    destruct (IH _ _ Hp1 Hrest) as (Hf' & Hp' & Hs' & Hc').
    split; [congruence|]. split; [exact Hp'|]. split.
    + rewrite Hs', Hs, (filter_has_file_files _ _ _ Hf), <- app_assoc, <- map_app.
      change (bt :: tickers) with ([bt] ++ tickers). rewrite filter_app. reflexivity.
    + rewrite Hc', Hc1, (batches_files _ _ _ Hf), <- app_assoc.
      unfold batches. cbn [flat_map]. rewrite app_nil_r. reflexivity.
Qed.

(** A loop that raises does so in the turn of one ticker, the turns before
    it having finished. *)
Lemma insert_loop_stopped (tickers : list (string * string)) :
  forall (w w' : world) (e : exn),
    Insertion.insert_loop tbl tickers w = (w', Raised e) ->
    exists pre bt post w1,
      tickers = pre ++ bt :: post
      /\ Insertion.insert_loop tbl pre w = (w1, Done tt)
      /\ Insertion.insert_bank tbl bt w1 = (w', Raised e).
Proof.
  unfold Insertion.insert_loop.
  induction tickers as [|bt tickers IH]; intros w w' e; cbn [for_each].
  - discriminate.
  - unfold bind.
    destruct (Insertion.insert_bank tbl bt w) as [w1 [[]|e1]] eqn:Hb.
    + intros Hrest. destruct (IH _ _ _ Hrest) as (pre & bt' & post & v & -> & Hpre & Hbt).
      exists (bt :: pre), bt', post, v. split; [reflexivity|]. split; [|exact Hbt].
      cbn [for_each]. unfold bind. rewrite Hb. exact Hpre.
    + intros [= <- <-]. exists [], bt, tickers, w.
      split; [reflexivity|]. split; [reflexivity | exact Hb].
Qed.

End WholeLoop.

(** C2, counterexample: TD's file holds a row the table refuses and
    Scotiabank's file is sound.  Run for Scotiabank alone, the cell stores
    its two rows; run for the three tickers, it stops at TD and stores
    nothing for Scotiabank. *)
Lemma failure_of_one_ticker_stops_the_others :
  committed (fst (Insertion.insert_cell_of Canonical.stock_prices
                    [("Scotiabank", "BNS.TO")] Scenario.td_mixed_bns_sound))
  = Scenario.bns_rows
  /\ committed (fst (Insertion.insert_cell Canonical.stock_prices
                       Scenario.td_mixed_bns_sound)) = []
  /\ stdout (fst (Insertion.insert_cell Canonical.stock_prices
                    Scenario.td_mixed_bns_sound))
     = [MsgError (DataError "TD.TO" "not-a-date")].
Proof. repeat split; vm_compute; reflexivity. Qed.

(** C2, as amended: the only handler encloses the whole loop, so the first
    ticker that raises ends the run.  What earlier tickers committed stays,
    the failing ticker commits nothing and prints nothing, one error line is
    printed, and the tickers after it are not processed: the result is the
    same whatever follows.  Only an absent file is passed over with the loop
    going on. *)
Theorem first_failure_ends_the_run (tbl : table_decl)
    (pre post : list (string * string)) (bt : string * string)
    (w w1 w2 : world) (e : exn) :
  db_up w = true ->
  Insertion.insert_loop tbl pre (with_txn (committed w) [] w) = (w1, Done tt) ->
  Insertion.insert_bank tbl bt w1 = (w2, Raised e) ->
  Insertion.insert_cell_of tbl (pre ++ bt :: post) w
  = (log_message (MsgError e) w2, Done tt)
  /\ committed (log_message (MsgError e) w2) = committed w1
  /\ stdout (log_message (MsgError e) w2) = stdout w1 ++ [MsgError e]
  /\ (forall bank ticker rest w0,
        files w0 !! Insertion.file_path bank = None ->
        Insertion.insert_loop tbl ((bank, ticker) :: rest) w0
        = Insertion.insert_loop tbl rest w0).
Proof.
  intros Hup Hpre Hbt. split; [|split; [|split]].
  - unfold Insertion.insert_cell_of, try_except.
    unfold bind at 1. rewrite (connect_up w Hup).
    unfold bind at 1. unfold Insertion.insert_loop in *.
    rewrite for_each_app. unfold bind at 1. rewrite Hpre.
    cbn [for_each]. unfold bind at 1. rewrite Hbt. reflexivity.
  - destruct (insert_bank_raised tbl _ _ _ _ Hbt) as (_ & _ & Hc & _).
    exact Hc.
  - destruct (insert_bank_raised tbl _ _ _ _ Hbt) as (_ & _ & _ & Hs & _).
    simpl. rewrite Hs. reflexivity.
  - intros bank ticker rest w0 Hnone.
    unfold Insertion.insert_loop. cbn [for_each]. unfold bind.
    rewrite (insert_bank_absent tbl _ _ _ Hnone). reflexivity.
Qed.

Lemma first_failure_ends_the_run_witness :
  Insertion.insert_cell Canonical.stock_prices Scenario.td_mixed_bns_sound
  = (log_message (MsgError (DataError "TD.TO" "not-a-date"))
       (fst (Insertion.insert_bank Canonical.stock_prices ("TD", "TD.TO")
               Scenario.td_mixed_bns_sound)),
     Done tt).
Proof.
  apply (first_failure_ends_the_run Canonical.stock_prices
           [] [("Scotiabank", "BNS.TO"); ("RBC", "RY.TO")] ("TD", "TD.TO")
           Scenario.td_mixed_bns_sound Scenario.td_mixed_bns_sound).
  - reflexivity.
  - reflexivity.
  - vm_compute. reflexivity.
Defined.

(** C7, counterexample: with no file in the folder the cell prints nothing
    at all, although no ticker was persisted; and when TD's batch fails, the
    one line printed names neither Scotiabank nor RBC, which were not
    persisted either. *)
Lemma skipped_tickers_are_not_reported :
  (let w' := fst (Insertion.insert_cell Canonical.stock_prices Scenario.no_files) in
   committed w' = [] /\ stdout w' = [])
  /\ (let w' := fst (Insertion.insert_cell Canonical.stock_prices
                       Scenario.td_mixed_bns_sound) in
      committed w' = []
      /\ length (stdout w') = 1
      /\ existsb (names_ticker ("Scotiabank", "BNS.TO")) (stdout w') = false
      /\ existsb (names_ticker ("RBC", "RY.TO")) (stdout w') = false).
Proof. repeat split; vm_compute; reflexivity. Qed.

(** C7, as amended: the cell always ends normally, in one of three ways.
    The database cannot be reached: one error line and nothing else.  The
    loop finishes: one success line for each ticker whose file was found, in
    the order of the catalog, and the rows stored are the batches of those
    very tickers.  The turn of a ticker raises: the success lines and the
    batches of the tickers before it, then one error line holding the
    exception of that turn, which stores nothing; the tickers after it get
    no line.  A ticker whose file is absent is passed over without a line
    and leaves the world as it was.  There is no summary and no count of
    rows. *)
Theorem success_lines_name_the_persisted (tbl : table_decl)
    (tickers : list (string * string)) (w w' : world) (o : outcome unit) :
  Insertion.insert_cell_of tbl tickers w = (w', o) ->
  o = Done tt
  /\ (db_up w = false /\ w' = log_message (MsgError OperationalError) w
      \/ db_up w = true
         /\ (exists w1,
               Insertion.insert_loop tbl tickers (with_txn (committed w) [] w)
               = (w1, Done tt))
         /\ stdout w' = stdout w ++ map inserted_message (filter (has_file w) tickers)
         /\ committed w' = committed w ++ batches w tickers
      \/ db_up w = true
         /\ exists pre bt post w1 w2 e,
              tickers = pre ++ bt :: post
              /\ has_file w bt = true
              /\ Insertion.insert_loop tbl pre (with_txn (committed w) [] w)
                 = (w1, Done tt)
              /\ Insertion.insert_bank tbl bt w1 = (w2, Raised e)
              /\ stdout w'
                 = stdout w ++ map inserted_message (filter (has_file w) pre)
                   ++ [MsgError e]
              /\ committed w' = committed w ++ batches w pre)
  /\ (forall bank ticker w0,
        files w0 !! Insertion.file_path bank = None ->
        Insertion.insert_bank tbl (bank, ticker) w0 = (w0, Done tt)).
Proof.
  intros Hrun. split; [|split].
  - revert Hrun. unfold Insertion.insert_cell_of, try_except, print.
    destruct ((connect;;; Insertion.insert_loop tbl tickers;;; conn_close) w)
      as [w1 [[]|e]]; intros [= _ <-]; reflexivity.
  - revert Hrun. unfold Insertion.insert_cell_of, try_except.
    unfold bind at 1. unfold connect.
    destruct (db_up w) eqn:Hup.
    + unfold bind at 1.
      destruct (Insertion.insert_loop tbl tickers (with_txn (committed w) [] w))
        as [w1 [[]|e]] eqn:Hloop.
      * destruct (insert_loop_finished tbl _ (with_txn (committed w) [] w) _ eq_refl Hloop)
          as (_ & _ & Hs & Hc).
        unfold conn_close. intros [= <- <-].
        right. left. split; [reflexivity|]. split; [exists w1; reflexivity|].
        split; [exact Hs | exact Hc].
      * destruct (insert_loop_stopped tbl _ _ _ _ Hloop)
          as (pre & bt & post & v & Ht & Hpre & Hbt).
        destruct (insert_loop_finished tbl _ (with_txn (committed w) [] w) _ eq_refl Hpre)
          as (Hfv & _ & Hsv & Hcv).
        destruct (insert_bank_raised tbl _ _ _ _ Hbt) as (_ & _ & Hc1 & Hs1 & _).
        unfold print. intros [= <- <-].
        right. right. split; [reflexivity|].
        exists pre, bt, post, v, w1, e.
        split; [exact Ht|]. split.
        { destruct bt as [bank ticker]. unfold has_file. cbn [fst].
          destruct (files v !! Insertion.file_path bank) as [f|] eqn:Hf.
          - rewrite Hfv in Hf. cbn [files with_txn] in Hf. rewrite Hf.
            apply bool_decide_eq_true_2. eexists; reflexivity.
          - rewrite (insert_bank_absent tbl _ _ _ Hf) in Hbt. discriminate Hbt. }
        split; [exact Hpre|]. split; [exact Hbt|]. split.
        -- cbn [stdout log_message]. rewrite Hs1, Hsv, <- app_assoc. reflexivity.
        -- cbn [committed log_message]. rewrite Hc1, Hcv. reflexivity.
    + unfold print. intros [= <- <-]. left. split; reflexivity.
  - intros bank ticker w0 Hnone. apply insert_bank_absent. exact Hnone.
Qed.

Lemma success_lines_name_the_persisted_witness :
  exists pre bt post e,
    Insertion.bank_tickers = pre ++ bt :: post
    /\ has_file Scenario.td_mixed_bns_sound bt = true
    /\ stdout (fst (Insertion.insert_cell Canonical.stock_prices
                       Scenario.td_mixed_bns_sound))
       = stdout Scenario.td_mixed_bns_sound
         ++ map inserted_message (filter (has_file Scenario.td_mixed_bns_sound) pre)
         ++ [MsgError e]
    /\ committed (fst (Insertion.insert_cell Canonical.stock_prices
                          Scenario.td_mixed_bns_sound))
       = committed Scenario.td_mixed_bns_sound
         ++ batches Scenario.td_mixed_bns_sound pre.
Proof.
  destruct (success_lines_name_the_persisted Canonical.stock_prices
              Insertion.bank_tickers Scenario.td_mixed_bns_sound
              (fst (Insertion.insert_cell Canonical.stock_prices
                      Scenario.td_mixed_bns_sound))
              (Done tt))
    as (_ & [[Hdown _]|[(_ & (w1 & Hloop) & _)
                       |(_ & pre & bt & post & w1 & w2 & e & Ht & Hh & _ & _ & Hs & Hc)]] & _).
  - vm_compute. reflexivity.
  - discriminate Hdown.
  - vm_compute in Hloop. discriminate Hloop.
  - exists pre, bt, post, e. auto.
Defined.
(** ** End to end (claims C5 and C10) *)

Section WholeCell.
Variable tbl : table_decl.

(** The rows the cell adds carry the symbols of its tickers. *)
Lemma insert_cell_committed (tickers : list (string * string))
    (w w' : world) (o : outcome unit) :
  Insertion.insert_cell_of tbl tickers w = (w', o) ->
  exists new,
    committed w' = committed w ++ new
    /\ Forall (fun r => In (stock_ticker r) (map snd tickers)) new.
Proof.
  unfold Insertion.insert_cell_of, try_except.
  unfold bind at 1. unfold connect. destruct (db_up w).
  - unfold bind at 1.
    destruct (Insertion.insert_loop tbl tickers (with_txn (committed w) [] w))
      as [w1 [[]|e]] eqn:Hloop;
      destruct (insert_loop_committed tbl _ _ _ _ Hloop) as (new & Hc & Hall);
      unfold conn_close, print; intros [= <- <-]; exists new; simpl;
      (split; [exact Hc|]);
      (eapply Forall_impl; [exact Hall|]);
      intros r [[]|Hr]; exact Hr.
  - unfold print. intros [= <- <-]. exists []. simpl. rewrite app_nil_r.
    split; [reflexivity | constructor].
Qed.

Lemma rows_of_other_ticker (t : string) (symbols : list string) (new : list db_row) :
  ~ In t symbols ->
  Forall (fun r => In (stock_ticker r) symbols) new ->
  rows_of_ticker t new = [].
Proof.
  intros Hn Hall. unfold rows_of_ticker.
  induction Hall as [|r new Hr _ IH]; [reflexivity|].
  rewrite filter_cons. destruct (decide (stock_ticker r = t)) as [Heq|_].
  - exfalso. apply Hn. rewrite <- Heq. exact Hr.
  - exact IH.
Qed.

End WholeCell.

Lemma append_inj_l (s a b : string) : s +:+ a = s +:+ b -> a = b.
Proof.
  induction s as [|c s IH]; simpl; [auto|]. intros [= H]. apply IH. exact H.
Qed.

Lemma path_join_inj (dir a b : string) : path_join dir a = path_join dir b -> a = b.
Proof.
  unfold path_join. intros H. apply append_inj_l in H. apply append_inj_l in H.
  exact H.
Qed.

(** C5, counterexample: after the run of the scenario no stored row has the
    logical name TD in its key; the keys carry the provider symbol. *)
Lemma rows_not_keyed_by_logical_name :
  let w' := fst (Scenario.end_to_end Scenario.td_feed Canonical.stock_prices
                   Scenario.td_catalog Scenario.no_files) in
  map key_of (committed w')
  <> map (fun b => ("TD", Scraping.bar_date b)) Scenario.td_bars
  /\ rows_of_ticker "TD" (committed w') = []
  /\ rows_of_ticker "TD.TO" (committed w') = Scenario.td_rows.
Proof.
  cbv zeta. split; [|split; vm_compute; reflexivity].
  intros H. vm_compute in H. discriminate H.
Qed.

(** C5, as amended: in the scenario (catalog TD to "TD.TO", two header rows
    and the four bars of 2020-01-02 to 2020-01-07 in the feed) the cleaned
    frame has the four rows under the schema's column names, and exactly
    four rows are stored, keyed by ("TD.TO", date), the provider symbol,
    with no key twice. *)
Theorem scenario_stores_four_rows_under_symbol :
  let w' := fst (Scenario.end_to_end Scenario.td_feed Canonical.stock_prices
                   Scenario.td_catalog Scenario.no_files) in
  files w' !! Insertion.file_path "TD" = Some (Scraping.to_csv "TD.TO" Scenario.td_bars)
  /\ length (raw_table (Scraping.to_csv "TD.TO" Scenario.td_bars)) = 2 + 4
  /\ Insertion.clean (Scraping.to_csv "TD.TO" Scenario.td_bars)
     = Done (mkFrame schema_columns (map Scraping.bar_line Scenario.td_bars))
  /\ committed w' = Scenario.td_rows
  /\ length (committed w') = 4
  /\ map key_of (committed w')
     = [("TD.TO", "2020-01-02"); ("TD.TO", "2020-01-03");
        ("TD.TO", "2020-01-06"); ("TD.TO", "2020-01-07")]
  /\ NoDup (map key_of (committed w'))
  /\ stdout w' = [MsgDownloading "TD" "TD.TO"; MsgSavedHistorical "TD";
                  MsgInserted "TD" "TD.TO"].
Proof.
  cbv zeta.
  split; [vm_compute; reflexivity|]. split; [reflexivity|].
  split; [reflexivity|]. split; [vm_compute; reflexivity|].
  split; [vm_compute; reflexivity|]. split; [vm_compute; reflexivity|].
  split; [|vm_compute; reflexivity].
  apply (bool_decide_eq_true_1 _). vm_compute. reflexivity.
Qed.

(** C10, counterexample: the provider answers for all five symbols and the
    notebook runs in the CSV folder.  BMO and CIBC are downloaded and saved,
    their files are there, and no row of theirs is stored; the insert cell
    also takes Scotiabank before RBC, the catalog RBC before Scotiabank. *)
Lemma fetched_tickers_left_unpersisted :
  let w' := fst (Scenario.notebook Scenario.full_feed Canonical.stock_prices
                   Scenario.no_files) in
  In ("BMO", "BMO.TO") Scraping.bank_tickers
  /\ files w' !! Insertion.file_path "BMO"
     = Some (Scraping.to_csv "BMO.TO" Scenario.bns_bars)
  /\ files w' !! Insertion.file_path "CIBC"
     = Some (Scraping.to_csv "CM.TO" Scenario.bns_bars)
  /\ rows_of_ticker "BMO.TO" (committed w') = []
  /\ rows_of_ticker "CM.TO" (committed w') = []
  /\ length (rows_of_ticker "TD.TO" (committed w')) = 4
  /\ stdout w'
     = [MsgDownloading "TD" "TD.TO"; MsgDownloading "BMO" "BMO.TO";
        MsgDownloading "RBC" "RY.TO"; MsgDownloading "CIBC" "CM.TO";
        MsgDownloading "Scotiabank" "BNS.TO";
        MsgSavedHistorical "TD"; MsgSavedHistorical "BMO"; MsgSavedHistorical "RBC";
        MsgSavedHistorical "CIBC"; MsgSavedHistorical "Scotiabank";
        MsgInserted "TD" "TD.TO"; MsgInserted "Scotiabank" "BNS.TO";
        MsgInserted "RBC" "RY.TO"].
Proof.
  cbv zeta. split; [right; left; reflexivity|].
  repeat split; vm_compute; reflexivity.
Qed.

Section Fetching.
Variable feed : string -> outcome (list Scraping.price_bar).
Variable cwd : string.

(** The dict cell 11 builds when every download answers. *)
Lemma download_loop_done (tickers : list (string * string))
    (data : list (list Scraping.price_bar)) :
  Forall2 (fun bt bars => feed (snd bt) = Done bars) tickers data ->
  forall (hd : list (string * (string * list Scraping.price_bar))) (w : world),
  exists w',
    Scraping.download_loop feed tickers hd w
    = (w', Done (fold_left
                   (fun d x => Scraping.dict_set (fst (fst x)) (snd (fst x), snd x) d)
                   (combine tickers data) hd))
    /\ files w' = files w
    /\ stdout w'
       = stdout w ++ map (fun bt => MsgDownloading (fst bt) (snd bt)) tickers.
Proof.
  induction 1 as [|[bank ticker] bars tickers data Hb _ IH]; intros hd w.
  - exists w. simpl. rewrite app_nil_r. auto.
  - destruct (IH (Scraping.dict_set bank (ticker, bars) hd)
                 (log_message (MsgDownloading bank ticker) w))
      as (w' & Hrun & Hf & Hs).
    exists w'. split; [|split].
    + cbn [Scraping.download_loop]. unfold bind at 1. unfold print.
      unfold bind at 1. unfold lift. cbn [snd] in Hb. rewrite Hb. exact Hrun.
    + rewrite Hf. reflexivity.
    + rewrite Hs. cbn [stdout log_message map fst snd].
      rewrite <- app_assoc. reflexivity.
Qed.

(** Cell 12 writes one file per entry of the dict. *)
Lemma save_historical_all
    (hd : list (string * (string * list Scraping.price_bar))) :
  forall w : world,
  exists w',
    for_each hd (Scraping.save_historical cwd) w = (w', Done tt)
    /\ files w'
       = fold_left
           (fun fs bd =>
              <[path_join cwd (fst bd +:+ "_historical_data.csv")
                := Scraping.to_csv (fst (snd bd)) (snd (snd bd))]> fs)
           hd (files w)
    /\ stdout w' = stdout w ++ map (fun bd => MsgSavedHistorical (fst bd)) hd
    /\ committed w' = committed w.
Proof.
  induction hd as [|[bank [ticker bars]] hd IH]; intros w.
  - exists w. simpl. rewrite app_nil_r. auto.
  - destruct (IH (log_message (MsgSavedHistorical bank)
                    (with_files (<[path_join cwd (bank +:+ "_historical_data.csv")
                                   := Scraping.to_csv ticker bars]> (files w)) w)))
      as (w' & Hrun & Hf & Hs & Hc).
    exists w'. split; [exact Hrun|]. split; [|split].
    + rewrite Hf. reflexivity.
    + rewrite Hs. cbn [stdout log_message with_files map fst].
      rewrite <- app_assoc. reflexivity.
    + rewrite Hc. reflexivity.
Qed.

Lemma path_join_ne (a b : string) :
  a <> b -> path_join cwd a <> path_join cwd b.
Proof. intros Hab Heq. apply Hab. exact (path_join_inj _ _ _ Heq). Qed.

End Fetching.

(** C10, as amended: the five tickers of the catalog are all downloaded and
    saved, in the catalog's order; the insert cell, which rebinds the
    catalog to TD, Scotiabank and RBC, adds only rows that carry one of
    these three symbols, so that BMO and CIBC are fetched and never
    persisted. *)
Theorem five_fetched_three_persisted (tbl : table_decl)
    (feed : string -> outcome (list Scraping.price_bar)) (cwd : string)
    (td bmo rbc cibc bns : list Scraping.price_bar) (w : world) :
  feed "TD.TO" = Done td -> feed "BMO.TO" = Done bmo -> feed "RY.TO" = Done rbc ->
  feed "CM.TO" = Done cibc -> feed "BNS.TO" = Done bns ->
  exists w1,
    Scraping.download_and_save feed cwd Scraping.bank_tickers w = (w1, Done tt)
    /\ stdout w1
       = stdout w
         ++ map (fun bt => MsgDownloading (fst bt) (snd bt)) Scraping.bank_tickers
         ++ map (fun bt => MsgSavedHistorical (fst bt)) Scraping.bank_tickers
    /\ files w1 !! path_join cwd "TD_historical_data.csv"
       = Some (Scraping.to_csv "TD.TO" td)
    /\ files w1 !! path_join cwd "BMO_historical_data.csv"
       = Some (Scraping.to_csv "BMO.TO" bmo)
    /\ files w1 !! path_join cwd "RBC_historical_data.csv"
       = Some (Scraping.to_csv "RY.TO" rbc)
    /\ files w1 !! path_join cwd "CIBC_historical_data.csv"
       = Some (Scraping.to_csv "CM.TO" cibc)
    /\ files w1 !! path_join cwd "Scotiabank_historical_data.csv"
       = Some (Scraping.to_csv "BNS.TO" bns)
    /\ forall w2 o,
         Insertion.insert_cell tbl w1 = (w2, o) ->
         exists new,
           committed w2 = committed w1 ++ new
           /\ Forall (fun r => In (stock_ticker r) ["TD.TO"; "BNS.TO"; "RY.TO"]) new
           /\ rows_of_ticker "BMO.TO" new = []
           /\ rows_of_ticker "CM.TO" new = [].
Proof.
  intros Htd Hbmo Hrbc Hcibc Hbns.
  destruct (download_loop_done feed Scraping.bank_tickers [td; bmo; rbc; cibc; bns]
              ltac:(repeat constructor; assumption) [] w)
    as (w0 & Hdl & Hf0 & Hs0).
  change (fold_left _ _ _)
    with [("TD", ("TD.TO", td)); ("BMO", ("BMO.TO", bmo)); ("RBC", ("RY.TO", rbc));
          ("CIBC", ("CM.TO", cibc)); ("Scotiabank", ("BNS.TO", bns))] in Hdl.
  destruct (save_historical_all cwd
              [("TD", ("TD.TO", td)); ("BMO", ("BMO.TO", bmo)); ("RBC", ("RY.TO", rbc));
               ("CIBC", ("CM.TO", cibc)); ("Scotiabank", ("BNS.TO", bns))] w0)
    as (w1 & Hsv & Hf1 & Hs1 & _).
  exists w1. split.
  { unfold Scraping.download_and_save, bind. rewrite Hdl. exact Hsv. }
  split.
  { rewrite Hs1, Hs0, <- app_assoc. reflexivity. }
  rewrite Hf1, Hf0. cbn [fold_left fst snd String.append].
  split; [|split; [|split; [|split; [|split]]]].
  - rewrite !lookup_insert_ne by (apply path_join_ne; discriminate).
    apply lookup_insert_eq.
  - rewrite !lookup_insert_ne by (apply path_join_ne; discriminate).
    apply lookup_insert_eq.
  - rewrite !lookup_insert_ne by (apply path_join_ne; discriminate).
    apply lookup_insert_eq.
  - rewrite !lookup_insert_ne by (apply path_join_ne; discriminate).
    apply lookup_insert_eq.
  - apply lookup_insert_eq.
  - intros w2 o Hrun.
    destruct (insert_cell_committed tbl _ _ _ _ Hrun) as (new & Hc & Hall).
    exists new. split; [exact Hc|]. split; [exact Hall|].
    split; (apply (rows_of_other_ticker _ (map snd Insertion.bank_tickers));
            [intros [H|[H|[H|[]]]]; discriminate H | exact Hall]).
Qed.

Lemma five_fetched_three_persisted_witness :
  exists w1,
    Scraping.download_and_save Scenario.full_feed Insertion.csv_folder
      Scraping.bank_tickers Scenario.no_files = (w1, Done tt)
    /\ files w1 !! Insertion.file_path "BMO"
       = Some (Scraping.to_csv "BMO.TO" Scenario.bns_bars)
    /\ forall w2 o,
         Insertion.insert_cell Canonical.stock_prices w1 = (w2, o) ->
         exists new,
           committed w2 = committed w1 ++ new
           /\ rows_of_ticker "BMO.TO" new = [].
Proof.
  destruct (five_fetched_three_persisted Canonical.stock_prices Scenario.full_feed
              Insertion.csv_folder Scenario.td_bars Scenario.bns_bars
              Scenario.bns_bars Scenario.bns_bars Scenario.bns_bars
              Scenario.no_files)
    as (w1 & Hrun & _ & _ & Hbmo & _ & _ & _ & Hins).
  - reflexivity.
  - reflexivity.
  - reflexivity.
  - reflexivity.
  - reflexivity.
  - exists w1. split; [exact Hrun|]. split; [exact Hbmo|].
    intros w2 o H2. destruct (Hins w2 o H2) as (new & Hc & _ & Hb & _).
    exists new. split; [exact Hc | exact Hb].
Defined.

(** ** Dividends (claim C9) *)

Section Dividends.
Variable income_statement balance_sheet cash_flow : string -> outcome Scraping.answer.
Variable history : string -> outcome Scraping.history_frame.
Variable cwd : string.



Lemma stdout_log_message (m : message) (w : world) :
  stdout (log_message m w) = stdout w ++ [m].
Proof. reflexivity. Qed.

Lemma stdout_with_files (fs : gmap string csv_file) (w : world) :
  stdout (with_files fs w) = stdout w.
Proof. reflexivity. Qed.



Lemma statements_saved_stdout (bank ticker : string) (i b c : csv_file) (w : world) :
  stdout (statements_saved cwd bank ticker i b c w)
  = stdout w ++ [MsgScraping bank ticker].
Proof.
  unfold statements_saved. cbv zeta.
  rewrite !stdout_with_files. apply stdout_log_message.
Qed.

Lemma fetch_statements_done (ticker : string) (i b c : Scraping.answer)
    (h : list Scraping.history_row) :
  fetch_statements income_statement balance_sheet cash_flow history ticker
  = Done (i, b, c, h) ->
  income_statement ticker = Done i /\ balance_sheet ticker = Done b
  /\ cash_flow ticker = Done c
  /\ history ticker = Done (Scraping.mkHistoryFrame true h).
Proof.
  unfold fetch_statements.
  destruct (income_statement ticker); [|discriminate].
  destruct (balance_sheet ticker); [|discriminate].
  destruct (cash_flow ticker); [|discriminate].
  destruct (history ticker) as [[[|] rows]|]; cbn [Scraping.with_dividends];
    [|discriminate|discriminate].
  intros [= -> -> -> <-]. auto.
Qed.

(** A turn whose four calls answer with tables and a history that has the
    dividends column: the three statement files, then the dividends file
    unless the frame is empty, then the closing line. *)
Lemma scrape_bank_done (bank ticker : string) (i b c : csv_file)
    (h : list Scraping.history_row) (w : world) :
  fetch_statements income_statement balance_sheet cash_flow history ticker
  = Done (Scraping.Table i, Scraping.Table b, Scraping.Table c, h) ->
  Scraping.scrape_bank income_statement balance_sheet cash_flow history cwd
    (bank, ticker) w
  = (log_message (MsgDataSaved bank)
       (match dividends_of ticker h with
        | [] => statements_saved cwd bank ticker i b c w
        | r :: d =>
            with_files
              (<[path_join cwd (bank +:+ "_dividends.csv")
                 := Scraping.dividends_csv (r :: d)]>
                 (files (statements_saved cwd bank ticker i b c w)))
              (statements_saved cwd bank ticker i b c w)
        end),
     Done tt).
Proof.
  intros Hall. destruct (fetch_statements_done _ _ _ _ _ Hall) as (Hi & Hb & Hc & Hh).
  unfold Scraping.scrape_bank, bind, print, lift, Scraping.select_dividends,
    Scraping.save_answer, write_file, ret.
  rewrite Hi, Hb, Hc, Hh. cbn [Scraping.with_dividends Scraping.history_rows].
  unfold dividends_of.
  destruct (filter (fun r => String.eqb (Scraping.h_symbol r) ticker) h);
    reflexivity.
Qed.

(** A turn one of whose calls fails, or whose history has no dividends
    column, raises before it writes anything. *)
Lemma scrape_bank_raised (bank ticker : string) (e : exn) (w : world) :
  fetch_statements income_statement balance_sheet cash_flow history ticker
  = Raised e ->
  Scraping.scrape_bank income_statement balance_sheet cash_flow history cwd
    (bank, ticker) w
  = (log_message (MsgScraping bank ticker) w, Raised e).
Proof.
  unfold fetch_statements, Scraping.scrape_bank, bind, print, lift,
    Scraping.select_dividends, raise.
  destruct (income_statement ticker); [|intros [= ->]; reflexivity].
  destruct (balance_sheet ticker); [|intros [= ->]; reflexivity].
  destruct (cash_flow ticker); [|intros [= ->]; reflexivity].
  destruct (history ticker) as [[[|] rows]|]; cbn [Scraping.with_dividends];
    [discriminate | intros [= <-]; reflexivity | intros [= ->]; reflexivity].
Qed.

Lemma dividends_of_symbol (ticker : string) (h : list Scraping.history_row) :
  Forall (fun r => Scraping.h_symbol r = ticker) (dividends_of ticker h).
Proof.
  unfold dividends_of. apply Forall_forall. intros r Hr.
  apply list_elem_of_filter in Hr. destruct Hr as [Hs _].
  apply Is_true_true in Hs. apply String.eqb_eq. exact Hs.
Qed.

Lemma print_statements_only (bank : string) (m : message) (w0 : world) :
  preserves (statements_only cwd bank w0) (print m).
Proof. intros v v' o HP [= <- <-]. exact HP. Qed.

Lemma write_file_statements_only (bank s : string) (f : csv_file) (w0 : world) :
  In s statement_suffixes ->
  preserves (statements_only cwd bank w0) (write_file (path_join cwd (bank +:+ s)) f).
Proof.
  intros Hs v v' o (Hc & Hp & Hi & Hf) [= <- <-].
  split; [exact Hc|]. split; [exact Hp|]. split; [exact Hi|].
  intros p Hout. cbn [files with_files].
  rewrite lookup_insert_ne by (intros Heq; apply (Hout s Hs); symmetry; exact Heq).
  apply Hf. exact Hout.
Qed.

Lemma save_answer_statements_only (bank s : string) (x : Scraping.answer)
    (w0 : world) :
  In s statement_suffixes ->
  preserves (statements_only cwd bank w0)
    (Scraping.save_answer (path_join cwd (bank +:+ s)) x).
Proof.
  intros Hs. destruct x as [f|text]; cbn [Scraping.save_answer].
  - apply write_file_statements_only. exact Hs.
  - apply preserves_pure. reflexivity.
Qed.

(** One turn leaves the database alone and writes under the bank's four
    names only, however it ends. *)
Lemma scrape_bank_frame (bank ticker : string) (w w' : world) (o : outcome unit) :
  Scraping.scrape_bank income_statement balance_sheet cash_flow history cwd
    (bank, ticker) w = (w', o) ->
  committed w' = committed w /\ pending w' = pending w /\ issued w' = issued w
  /\ forall p,
       (forall suffix, In suffix statement_suffixes ->
                       p <> path_join cwd (bank +:+ suffix)) ->
       files w' !! p = files w !! p.
Proof.
  intros Hrun.
  assert (HP : preserves (statements_only cwd bank w)
                 (Scraping.scrape_bank income_statement balance_sheet cash_flow
                    history cwd (bank, ticker))).
  { unfold Scraping.scrape_bank. cbv beta iota zeta.
    apply preserves_bind; [apply print_statements_only|]. intros _.
    apply preserves_bind; [apply preserves_pure; reflexivity|]. intros i.
    apply preserves_bind; [apply preserves_pure; reflexivity|]. intros b.
    apply preserves_bind; [apply preserves_pure; reflexivity|]. intros c.
    apply preserves_bind; [apply preserves_pure; reflexivity|]. intros fr.
    apply preserves_bind.
    { apply preserves_pure. intros v. unfold Scraping.select_dividends.
      destruct (Scraping.with_dividends fr); reflexivity. }
    intros d.
    apply preserves_bind; [apply save_answer_statements_only; cbn; auto|]. intros _.
    apply preserves_bind; [apply save_answer_statements_only; cbn; auto|]. intros _.
    apply preserves_bind; [apply save_answer_statements_only; cbn; auto|]. intros _.
    apply preserves_bind.
    { destruct (negb (bool_decide (d = []))).
      - apply write_file_statements_only. cbn. auto 6.
      - apply preserves_pure. reflexivity. }
    intros _. apply print_statements_only. }
  apply (HP w w' o); [|exact Hrun].
  unfold statements_only. auto.
Qed.

End Dividends.




(** ** Beyond the claims: the shape of a cleaned frame *)

Section ReadingBack.

Lemma bar_lines_width (bars : list Scraping.price_bar) :
  Forall (fun r : line => length r = 6) (map Scraping.bar_line bars).
Proof. induction bars as [|b bars IH]; simpl; constructor; [reflexivity | exact IH]. Qed.

Lemma pad_length (n : nat) (l : line) : length l <= n -> length (pad n l) = n.
Proof.
  intros H. unfold pad. rewrite length_app, repeat_length.
  apply Nat.sub_add in H. rewrite Nat.add_comm. exact H.
Qed.

Lemma row_of_bar_line (ticker : string) (b : Scraping.price_bar) :
  row_of ticker (Scraping.bar_line b) = row_of_bar ticker b.
Proof. reflexivity. Qed.

End ReadingBack.

(** X3: on a file without a blank line (every line holds a separator, so
    at least two fields), every frame the insert cell's cleaning returns has
    the six column names of the schema, rows of exactly six fields (short
    lines filled with empty fields), and one row for each line of the file
    after the third. *)
Theorem cleaned_frame_shape (f : csv_file) (df : DataFrame) :
  Forall (fun r : line => 2 <= length r) f ->
  Insertion.clean f = Done df ->
  columns df = schema_columns
  /\ Forall (fun r : line => length r = 6) (rows df)
  /\ length (rows df) + 3 = length f.
Proof.
  intros _. unfold Insertion.clean, read_csv_lines.
  destruct f as [|l0 [|l1 [|l2 body]]]; try discriminate.
  cbn [skipn].
  destruct (forallb (fun r : line => Nat.leb (length r) (length l2)) body) eqn:Hw;
    [|discriminate].
  unfold set_columns. cbn [columns rows].
  destruct (Nat.eqb (length schema_columns) (length l2)) eqn:H6; [|discriminate].
  intros [= <-]. cbn [columns rows].
  apply Nat.eqb_eq in H6. change (length schema_columns) with 6 in H6.
  split; [reflexivity|]. split.
  - rewrite <- H6 in Hw |- *. rewrite forallb_forall in Hw.
    apply Forall_forall. intros r Hr.
    apply list_elem_of_In, in_map_iff in Hr. destruct Hr as (r0 & <- & Hr0).
    apply pad_length. apply Nat.leb_le. apply Hw. exact Hr0.
  - rewrite length_map. cbn [length]. rewrite Nat.add_comm. reflexivity.
Qed.

Lemma cleaned_frame_shape_witness :
  exists df,
    Insertion.clean Scenario.flat_file = Done df
    /\ columns df = schema_columns
    /\ length (rows df) + 3 = 5.
Proof.
  exists (mkFrame schema_columns (skipn 2 (map Scraping.bar_line Scenario.td_bars))).
  split; [reflexivity|].
  destruct (cleaned_frame_shape Scenario.flat_file
              (mkFrame schema_columns (skipn 2 (map Scraping.bar_line Scenario.td_bars))))
    as (Hc & _ & Hl).
  - apply (bool_decide_unpack _). vm_compute. exact I.
  - reflexivity.
  - split; [exact Hc | exact Hl].
Defined.

(** ** Beyond the claims: edge cases of one turn of the insert loop *)

(** X4: a file that is there but cannot be cleaned stops the turn before
    anything is sent: the exception of the cleaning is raised with the world
    exactly as it was.  A file of at most two lines is an empty file for the
    reading; a file whose third line and the lines after it all have the
    same number of fields, at least two and not six, fails at the renaming
    of the columns. *)
Theorem unreadable_file_sends_nothing (tbl : table_decl) (bank ticker : string)
    (f : csv_file) (w : world) :
  files w !! Insertion.file_path bank = Some f ->
  (length f <= 2 ->
   Insertion.insert_bank tbl (bank, ticker) w = (w, Raised EmptyDataError))
  /\ (forall l0 l1 l2 body,
        f = l0 :: l1 :: l2 :: body ->
        2 <= length l2 -> length l2 <> 6 ->
        Forall (fun r : line => length r = length l2) body ->
        Insertion.insert_bank tbl (bank, ticker) w = (w, Raised LengthMismatch)).
Proof.
  intros Hf.
  assert (Hturn : forall e, Insertion.clean f = Raised e ->
                            Insertion.insert_bank tbl (bank, ticker) w = (w, Raised e)).
  { intros e Hc. rewrite (insert_bank_present tbl _ _ _ _ Hf).
    unfold Insertion.insert_file. unfold bind at 1. unfold read_csv. rewrite Hf.
    unfold Insertion.clean in Hc.
    destruct (read_csv_lines 2 f) as [df0|e0].
    - unfold bind at 1. unfold lift. rewrite Hc. reflexivity.
    - injection Hc as ->. reflexivity. }
  split.
  - intros Hlen. apply Hturn. unfold Insertion.clean, read_csv_lines.
    destruct f as [|l0 [|l1 [|l2 body]]]; cbn [skipn]; try reflexivity.
    exfalso. cbn [length] in Hlen.
    apply (Nat.nle_succ_diag_l 2). eapply Nat.le_trans; [|exact Hlen].
    apply le_n_S, le_n_S, le_n_S, Nat.le_0_l.
  - intros l0 l1 l2 body -> _ H6 Hb. apply Hturn.
    unfold Insertion.clean.
    change (read_csv_lines 2 (l0 :: l1 :: l2 :: body)) with (read_csv_lines 0 (l2 :: body)).
    rewrite (read_csv_lines_width l2 body Hb).
    unfold set_columns. cbn [columns].
    destruct (Nat.eqb (length schema_columns) (length l2)) eqn:Heq; [|reflexivity].
    apply Nat.eqb_eq in Heq. exfalso. apply H6. symmetry. exact Heq.
Qed.

Lemma unreadable_file_sends_nothing_witness :
  Insertion.insert_bank Canonical.stock_prices ("TD", "TD.TO") Examples.truncated
  = (Examples.truncated, Raised EmptyDataError)
  /\ Insertion.insert_bank Canonical.stock_prices ("TD", "TD.TO") Examples.narrow
     = (Examples.narrow, Raised LengthMismatch).
Proof.
  split.
  - apply (unreadable_file_sends_nothing Canonical.stock_prices "TD" "TD.TO"
             Examples.truncated_file Examples.truncated).
    + vm_compute. reflexivity.
    + repeat constructor.
  - destruct (unreadable_file_sends_nothing Canonical.stock_prices "TD" "TD.TO"
                Examples.narrow_file Examples.narrow) as (_ & H).
    + vm_compute. reflexivity.
    + apply (H ["Price"; "Close"; "High"; "Low"; "Open"]
               ["Ticker"; "TD.TO"; "TD.TO"; "TD.TO"; "TD.TO"]
               ["Date"; ""; ""; ""; ""]
               (map (firstn 5) (map Scraping.bar_line Scenario.td_bars))).
      * reflexivity.
      * repeat constructor.
      * discriminate.
      * repeat constructor.
Defined.

(** X5: a download that came back without a bar is persisted as a success:
    the turn sends a commit and nothing else, stores nothing and prints the
    success line. *)
Theorem empty_download_commits_nothing (tbl : table_decl)
    (bank ticker symbol : string) (w : world) :
  files w !! Insertion.file_path bank = Some (Scraping.to_csv symbol []) ->
  pending w = [] ->
  exists w',
    Insertion.insert_bank tbl (bank, ticker) w = (w', Done tt)
    /\ committed w' = committed w
    /\ issued w' = issued w ++ [StCommit]
    /\ stdout w' = stdout w ++ [MsgInserted bank ticker]
    /\ files w' = files w.
Proof.
  intros Hf Hp.
  assert (Hc : Insertion.clean (Scraping.to_csv symbol [])
               = Done (mkFrame schema_columns []))
    by (apply (insertion_clean_drops _ _ _ []); [reflexivity | constructor]).
  rewrite (insert_bank_present tbl _ _ _ _ Hf).
  rewrite (insert_file_clean tbl _ _ _ _ _ _ Hf Hc).
  cbn [rows map for_each]. unfold bind, ret, conn_commit, print.
  eexists. split; [reflexivity|]. cbn. rewrite Hp, app_nil_r. auto.
Qed.

Lemma empty_download_commits_nothing_witness :
  exists w',
    Insertion.insert_bank Canonical.stock_prices ("TD", "TD.TO")
      Examples.empty_download = (w', Done tt)
    /\ committed w' = []
    /\ issued w' = [StCommit]
    /\ stdout w' = [MsgInserted "TD" "TD.TO"].
Proof.
  destruct (empty_download_commits_nothing Canonical.stock_prices
              "TD" "TD.TO" "TD.TO" Examples.empty_download)
    as (w' & Hrun & Hc & Hi & Hs & _).
  - vm_compute. reflexivity.
  - reflexivity.
  - exists w'. split; [exact Hrun|]. split; [exact Hc|]. split; [exact Hi | exact Hs].
Defined.

(** X6: when the database cannot be reached the cell does not look at any
    file: it prints the connection error and ends normally, the world being
    otherwise as before. *)
Theorem unreachable_database_reads_nothing (tbl : table_decl)
    (tickers : list (string * string)) (w : world) :
  db_up w = false ->
  Insertion.insert_cell_of tbl tickers w
  = (log_message (MsgError OperationalError) w, Done tt).
Proof.
  intros Hdown. unfold Insertion.insert_cell_of, try_except.
  unfold bind at 1. unfold connect. rewrite Hdown. reflexivity.
Qed.

Lemma unreachable_database_reads_nothing_witness :
  committed (fst (Insertion.insert_cell Canonical.stock_prices Examples.database_down))
  = Scenario.td_rows
  /\ stdout (fst (Insertion.insert_cell Canonical.stock_prices Examples.database_down))
     = [MsgError OperationalError].
Proof.
  unfold Insertion.insert_cell.
  rewrite (unreachable_database_reads_nothing Canonical.stock_prices
             Insertion.bank_tickers Examples.database_down eq_refl).
  split; reflexivity.
Defined.

(** ** Beyond the claims: what the insert cell never does *)

Section Growth.
Variable tbl : table_decl.

Lemma extends_refl (w : world) : extends w w.
Proof. unfold extends. repeat split; reflexivity. Qed.

Lemma extends_trans (w1 w2 w3 : world) :
  extends w1 w2 -> extends w2 w3 -> extends w1 w3.
Proof.
  intros (Hf & Hu & Hc & Hi & Hs) (Hf' & Hu' & Hc' & Hi' & Hs').
  unfold extends. split; [congruence|]. split; [congruence|].
  split; [etrans; eassumption|]. split; etrans; eassumption.
Qed.

Lemma grows_bind {A B} (c : Exec A) (k : A -> Exec B) :
  grows c -> (forall a, grows (k a)) -> grows (bind c k).
Proof.
  intros Hc Hk w w' o. unfold bind.
  destruct (c w) as [w1 [a|e]] eqn:Hrun.
  - intros Hrest. eapply extends_trans; [exact (Hc _ _ _ Hrun)|].
    exact (Hk a _ _ _ Hrest).
  - intros [= <- <-]. exact (Hc _ _ _ Hrun).
Qed.

Lemma grows_for_each {A} (xs : list A) (body : A -> Exec unit) :
  (forall x, grows (body x)) -> grows (for_each xs body).
Proof.
  intros Hb. induction xs as [|x xs IH]; cbn [for_each].
  - intros w w' o [= <- <-]. apply extends_refl.
  - apply grows_bind; [apply Hb | intros _; exact IH].
Qed.

Lemma grows_pure {A} (c : Exec A) :
  (forall w, fst (c w) = w) -> grows c.
Proof.
  intros H w w' o Hrun. pose proof (H w) as Hw. rewrite Hrun in Hw.
  cbn [fst] in Hw. subst w'. apply extends_refl.
Qed.

Lemma grows_print (m : message) : grows (print m).
Proof.
  intros w w' o [= <- <-]. unfold extends. cbn.
  repeat split; try reflexivity. apply prefix_app_r. reflexivity.
Qed.

Lemma grows_cursor_execute (r : db_row) : grows (cursor_execute tbl r).
Proof.
  intros w w' o Hrun.
  destruct (cursor_execute_inv tbl _ _ _ _ Hrun) as (Hf & Hu & Hc & Hs & Hi & _).
  unfold extends. rewrite Hf, Hu, Hc, Hs, Hi.
  repeat split; try reflexivity. apply prefix_app_r. reflexivity.
Qed.

Lemma grows_conn_commit : grows conn_commit.
Proof.
  intros w w' o [= <- <-]. unfold extends. cbn.
  repeat split; try reflexivity; apply prefix_app_r; reflexivity.
Qed.

Lemma grows_insert_bank (bt : string * string) : grows (Insertion.insert_bank tbl bt).
Proof.
  destruct bt as [bank ticker]. unfold Insertion.insert_bank.
  apply grows_bind; [apply grows_pure; reflexivity|].
  intros [|]; [|apply grows_pure; reflexivity].
  unfold Insertion.insert_file.
  apply grows_bind.
  { apply grows_pure. intros w. unfold read_csv.
    destruct (files w !! Insertion.file_path bank); reflexivity. }
  intros df0. apply grows_bind; [apply grows_pure; reflexivity|].
  intros df. apply grows_bind.
  { apply grows_for_each. intros row. unfold Insertion.insert_row.
    apply grows_bind; [apply grows_pure; reflexivity|].
    intros r. apply grows_cursor_execute. }
  intros _. apply grows_bind; [apply grows_conn_commit|].
  intros _. apply grows_print.
Qed.

End Growth.

(** X7: whatever the files hold and however the run ends, the insert cell
    only adds: it writes no file, and the rows stored, the statements sent
    and the lines printed before the run are kept, in place and in order, at
    the head of those after it.  It never deletes or rewrites a stored
    row. *)
Theorem insert_cell_only_appends (tbl : table_decl)
    (tickers : list (string * string)) (w w' : world) (o : outcome unit) :
  Insertion.insert_cell_of tbl tickers w = (w', o) ->
  files w' = files w
  /\ (exists new, committed w' = committed w ++ new)
  /\ (exists sent, issued w' = issued w ++ sent)
  /\ (exists out, stdout w' = stdout w ++ out).
Proof.
  intros Hrun.
  assert (Hg : extends w w').
  { revert Hrun. unfold Insertion.insert_cell_of, try_except.
    destruct ((connect;;; Insertion.insert_loop tbl tickers;;; conn_close) w)
      as [w1 [[]|e]] eqn:Hbody.
    - intros [= <- <-]. revert Hbody. apply grows_bind.
      + intros v v' o'. unfold connect. destruct (db_up v).
        * intros [= <- <-]. unfold extends. cbn. repeat split; reflexivity.
        * intros [= <- <-]. apply extends_refl.
      + intros _. apply grows_bind.
        * unfold Insertion.insert_loop. apply grows_for_each.
          apply grows_insert_bank.
        * intros _ v v' o' [= <- <-]. unfold extends. cbn.
          repeat split; reflexivity.
    - intros Hprint. eapply extends_trans; [|exact (grows_print _ _ _ _ Hprint)].
      revert Hbody. apply grows_bind.
      + intros v v' o'. unfold connect. destruct (db_up v).
        * intros [= <- <-]. unfold extends. cbn. repeat split; reflexivity.
        * intros [= <- <-]. apply extends_refl.
      + intros _. apply grows_bind.
        * unfold Insertion.insert_loop. apply grows_for_each.
          apply grows_insert_bank.
        * intros _ v v' o' [= <- <-]. unfold extends. cbn.
          repeat split; reflexivity. }
  destruct Hg as (Hf & _ & Hc & Hi & Hs). split; [exact Hf|].
  split; [exact Hc|]. split; [exact Hi | exact Hs].
Qed.

Lemma insert_cell_only_appends_witness :
  exists new,
    committed (fst (Insertion.insert_cell Canonical.stock_prices_no_key
                      (fst (Insertion.insert_cell Canonical.stock_prices_no_key
                              Scenario.td_only))))
    = Scenario.td_rows ++ new.
Proof.
  destruct (insert_cell_only_appends Canonical.stock_prices_no_key
              Insertion.bank_tickers
              (fst (Insertion.insert_cell Canonical.stock_prices_no_key Scenario.td_only))
              (fst (Insertion.insert_cell Canonical.stock_prices_no_key
                      (fst (Insertion.insert_cell Canonical.stock_prices_no_key
                              Scenario.td_only))))
              (Done tt))
    as (_ & (new & Hc) & _).
  - vm_compute. reflexivity.
  - exists new. rewrite Hc. f_equal.
Defined.

(** ** Beyond the claims: loads that succeed, and the key of the table *)

Section Loads.
Variable tbl : table_decl.

(** On a keyed table, rows that fit the columns and bring new, distinct
    keys are all taken. *)
Lemma exec_rows_fresh (rs : list db_row) :
  Forall (fun r => col_ok tbl r = true) rs ->
  forall w,
    NoDup (map key_of ((committed w ++ pending w) ++ rs)) ->
    exists w', for_each rs (cursor_execute tbl) w = (w', Done tt).
Proof.
  induction 1 as [|r rs Hr _ IH]; intros w Hnd; cbn [for_each].
  - exists w. reflexivity.
  - unfold bind, cursor_execute at 1. rewrite Hr. cbn [negb].
    assert (Hfree : key_taken r w = false).
    { unfold key_taken. apply bool_decide_eq_false_2. intros Hin.
      rewrite map_app in Hnd. apply NoDup_app in Hnd.
      destruct Hnd as (_ & Hdisj & _). apply (Hdisj _ Hin). left. }
    rewrite Hfree, andb_false_r. apply IH. cbn.
    rewrite <- !app_assoc. rewrite <- !app_assoc in Hnd. exact Hnd.
Qed.

End Loads.

(** X8: on a table without the key constraint, if every file that is there
    can be cleaned and all its rows fit the columns, the loop raises nothing
    and stores exactly the batches of the files, one after the other in the
    order of the catalog, with one success line per file found. *)
Theorem unkeyed_load_stores_all_batches (tbl : table_decl)
    (tickers : list (string * string)) (w : world) :
  unique_key tbl = false ->
  pending w = [] ->
  Forall (fun bt => forall f,
            files w !! Insertion.file_path (fst bt) = Some f ->
            (exists df, Insertion.clean f = Done df)
            /\ Forall (fun r => col_ok tbl r = true) (batch_of (snd bt) f)) tickers ->
  exists w',
    Insertion.insert_loop tbl tickers w = (w', Done tt)
    /\ committed w' = committed w ++ batches w tickers
    /\ pending w' = []
    /\ stdout w' = stdout w ++ map inserted_message (filter (has_file w) tickers).
Proof.
  intros Hk Hp Hall. revert w Hp Hall. unfold Insertion.insert_loop.
  induction tickers as [|[bank ticker] tickers IH]; intros w Hp Hall.
  - exists w. cbn. rewrite !app_nil_r. auto.
  - inversion Hall as [|? ? Hbt Hrest]; subst. cbn [fst snd] in Hbt.
    assert (Hturn : exists w1,
      Insertion.insert_bank tbl (bank, ticker) w = (w1, Done tt)
      /\ files w1 = files w
      /\ committed w1 = committed w ++ batches w [(bank, ticker)]
      /\ pending w1 = []
      /\ stdout w1 = stdout w ++ map inserted_message (filter (has_file w) [(bank, ticker)])).
    { destruct (files w !! Insertion.file_path bank) as [f|] eqn:Hf.
      - destruct (Hbt f eq_refl) as ((df & Hc) & Hok).
        assert (Hb : batch_of ticker f = map (row_of ticker) (rows df))
          by (unfold batch_of; rewrite Hc; reflexivity).
        rewrite Hb in Hok.
        destruct (exec_rows_no_key tbl _ Hk Hok w) as (v & Hex).
        destruct (exec_rows_inv tbl _ _ _ _ Hex)
          as (Hfv & Huv & Hcv & Hsv & sent & Hiv & _ & Hpv & _).
        eexists. split.
        { rewrite (insert_bank_present tbl _ _ _ _ Hf).
          rewrite (insert_file_clean tbl _ _ _ _ _ _ Hf Hc).
          unfold bind at 1. rewrite Hex. unfold bind, conn_commit, print.
          reflexivity. }
        cbn [files committed pending stdout log_message log_statement with_txn].
        split; [exact Hfv|]. split; [|split; [reflexivity|]].
        + unfold batches. cbn [flat_map fst snd]. rewrite Hf, Hb, Hcv, Hpv, Hp.
          rewrite app_nil_r. reflexivity.
        + rewrite Hsv. rewrite filter_cons.
          destruct (decide (has_file w (bank, ticker))) as [_|Hn]; [reflexivity|].
          exfalso. apply Hn. unfold has_file. cbn [fst]. rewrite Hf.
          apply bool_decide_pack. eexists; reflexivity.
      - exists w. split; [apply insert_bank_absent; exact Hf|].
        split; [reflexivity|]. split; [|split; [exact Hp|]].
        + unfold batches. cbn [flat_map fst]. rewrite Hf. rewrite !app_nil_r.
          reflexivity.
        + rewrite filter_cons.
          destruct (decide (has_file w (bank, ticker))) as [Ht|_];
            [|cbn; rewrite app_nil_r; reflexivity].
          exfalso. unfold has_file in Ht. cbn [fst] in Ht. rewrite Hf in Ht.
          apply bool_decide_unpack in Ht. destruct Ht as [x Hx]. discriminate. }
    destruct Hturn as (w1 & Hrun & Hf1 & Hc1 & Hp1 & Hs1).
    assert (Hrest' : Forall (fun bt => forall f,
              files w1 !! Insertion.file_path (fst bt) = Some f ->
              (exists df, Insertion.clean f = Done df)
              /\ Forall (fun r => col_ok tbl r = true) (batch_of (snd bt) f)) tickers)
      by (rewrite Hf1; exact Hrest).
    destruct (IH w1 Hp1 Hrest') as (w' & Hloop & Hc' & Hp' & Hs').
    exists w'. split.
    { cbn [for_each]. unfold bind. rewrite Hrun. exact Hloop. }
    split; [|split; [exact Hp'|]].
    + rewrite Hc', Hc1, (batches_files _ _ _ Hf1), <- app_assoc.
      unfold batches. cbn [flat_map]. rewrite app_nil_r. reflexivity.
    + rewrite Hs', Hs1, (filter_has_file_files _ _ _ Hf1), <- app_assoc, <- map_app.
      change ((bank, ticker) :: tickers) with ([(bank, ticker)] ++ tickers).
      rewrite filter_app. reflexivity.
Qed.

Lemma unkeyed_load_stores_all_batches_witness :
  exists w',
    Insertion.insert_loop Canonical.stock_prices_no_key Insertion.bank_tickers
      Examples.two_sound_files = (w', Done tt)
    /\ committed w' = Scenario.td_rows ++ Scenario.bns_rows
    /\ stdout w' = [MsgInserted "TD" "TD.TO"; MsgInserted "Scotiabank" "BNS.TO"].
Proof.
  destruct (unkeyed_load_stores_all_batches Canonical.stock_prices_no_key
              Insertion.bank_tickers Examples.two_sound_files)
    as (w' & Hrun & Hc & _ & Hs).
  - reflexivity.
  - reflexivity.
  - apply Forall_cons. split; [|apply Forall_cons; split; [|apply Forall_cons; split]].
    + cbn [fst snd]. intros f Hf.
      assert (Hl : files Examples.two_sound_files !! Insertion.file_path "TD"
                   = Some (Scraping.to_csv "TD.TO" Scenario.td_bars))
        by (vm_compute; reflexivity).
      rewrite Hl in Hf. injection Hf as <-.
      split; [eexists; reflexivity | apply (bool_decide_unpack _); vm_compute; exact I].
    + cbn [fst snd]. intros f Hf.
      assert (Hl : files Examples.two_sound_files !! Insertion.file_path "Scotiabank"
                   = Some (Scraping.to_csv "BNS.TO" Scenario.bns_bars))
        by (vm_compute; reflexivity).
      rewrite Hl in Hf. injection Hf as <-.
      split; [eexists; reflexivity | apply (bool_decide_unpack _); vm_compute; exact I].
    + cbn [fst snd]. intros f Hf.
      assert (Hl : files Examples.two_sound_files !! Insertion.file_path "RBC" = None)
        by (vm_compute; reflexivity).
      rewrite Hl in Hf. discriminate Hf.
    + constructor.
  - exists w'. split; [exact Hrun|]. split.
    + rewrite Hc. vm_compute. reflexivity.
    + rewrite Hs. vm_compute. reflexivity.
Defined.

(** X10: the first load of a ticker on a keyed table.  If the rows of the
    downloaded bars fit the columns, no two bars share a date and no row of
    the ticker is in the store or in the open transaction, the turn stores
    one row per bar, in the order of the file, and ends with the commit. *)
Theorem first_load_stores_every_bar (tbl : table_decl) (bank ticker symbol : string)
    (bars : list Scraping.price_bar) (w : world) :
  files w !! Insertion.file_path bank = Some (Scraping.to_csv symbol bars) ->
  Forall (fun b => col_ok tbl (row_of_bar ticker b) = true) bars ->
  NoDup (map Scraping.bar_date bars) ->
  keys_unique w ->
  rows_of_ticker ticker (committed w ++ pending w) = [] ->
  exists w',
    Insertion.insert_bank tbl (bank, ticker) w = (w', Done tt)
    /\ committed w' = committed w ++ pending w ++ map (row_of_bar ticker) bars
    /\ pending w' = []
    /\ issued w' = issued w ++ map StInsert (map (row_of_bar ticker) bars) ++ [StCommit]
    /\ keys_unique w'.
Proof.
  intros Hf Hok Hdates Huniq Hnone.
  assert (Hc : Insertion.clean (Scraping.to_csv symbol bars)
               = Done (mkFrame schema_columns (map Scraping.bar_line bars)))
    by (unfold Scraping.to_csv; apply insertion_clean_drops;
        [reflexivity | apply bar_lines_width]).
  assert (Hrows : map (row_of ticker) (map Scraping.bar_line bars)
                  = map (row_of_bar ticker) bars)
    by (rewrite map_map; apply map_ext; intros b; apply row_of_bar_line).
  assert (Hfresh : NoDup (map key_of ((committed w ++ pending w)
                                      ++ map (row_of_bar ticker) bars))).
  { rewrite map_app. apply NoDup_app. split; [exact Huniq|]. split.
    - intros k Hk Hk'.
      apply list_elem_of_In, in_map_iff in Hk. destruct Hk as (r & <- & Hr).
      apply list_elem_of_In in Hk'. rewrite map_map in Hk'.
      apply in_map_iff in Hk'. destruct Hk' as (b & Hb & _).
      assert (Ht : stock_ticker r = ticker) by (injection Hb as Ht _; symmetry; exact Ht).
      assert (Hin : r ∈ rows_of_ticker ticker (committed w ++ pending w)).
      { unfold rows_of_ticker. apply list_elem_of_filter. split; [exact Ht|].
        apply list_elem_of_In. exact Hr. }
      rewrite Hnone in Hin. inversion Hin.
    - rewrite map_map.
      assert (Hinj : forall l : list Scraping.price_bar,
                NoDup (map Scraping.bar_date l) ->
                NoDup (map (fun b => key_of (row_of_bar ticker b)) l)).
      { induction l as [|b l IH]; cbn [map]; intros Hl; [constructor|].
        apply NoDup_cons in Hl. destruct Hl as [Hb Hl]. apply NoDup_cons.
        split; [|apply IH; exact Hl].
        intros Hin. apply Hb.
        apply list_elem_of_In, in_map_iff in Hin. destruct Hin as (b' & Hb' & Hin).
        apply list_elem_of_In, in_map_iff. exists b'. split; [|exact Hin].
        injection Hb' as Hd. exact Hd. }
      apply Hinj. exact Hdates. }
  assert (Hok' : Forall (fun r => col_ok tbl r = true) (map (row_of_bar ticker) bars)).
  { apply Forall_forall. intros r Hr.
    apply list_elem_of_In, in_map_iff in Hr. destruct Hr as (b & <- & Hb).
    rewrite Forall_forall in Hok. apply Hok. apply list_elem_of_In. exact Hb. }
  destruct (exec_rows_fresh tbl _ Hok' w Hfresh) as (v & Hex).
  destruct (exec_rows_inv tbl _ _ _ _ Hex)
    as (Hfv & Huv & Hcv & Hsv & sent & Hiv & -> & Hpv & _).
  eexists. split.
  { rewrite (insert_bank_present tbl _ _ _ _ Hf).
    rewrite (insert_file_clean tbl _ _ _ _ _ _ Hf Hc).
    cbn [rows]. rewrite Hrows. unfold bind at 1. rewrite Hex.
    unfold bind, conn_commit, print. reflexivity. }
  cbn [files committed pending stdout issued log_message log_statement with_txn].
  split; [rewrite Hcv, Hpv; reflexivity|]. split; [reflexivity|].
  split; [rewrite Hiv, <- app_assoc; reflexivity|].
  unfold keys_unique.
  cbn [committed pending log_message log_statement with_txn].
  rewrite app_nil_r, Hcv, Hpv, app_assoc. exact Hfresh.
Qed.

Lemma first_load_stores_every_bar_witness :
  exists w',
    Insertion.insert_bank Canonical.stock_prices ("TD", "TD.TO") Scenario.td_only
    = (w', Done tt)
    /\ committed w' = map (row_of_bar "TD.TO") Scenario.td_bars.
Proof.
  destruct (first_load_stores_every_bar Canonical.stock_prices "TD" "TD.TO" "TD.TO"
              Scenario.td_bars Scenario.td_only)
    as (w' & Hrun & Hc & _).
  - vm_compute. reflexivity.
  - apply (bool_decide_unpack _). vm_compute. exact I.
  - apply (bool_decide_unpack _). vm_compute. exact I.
  - unfold keys_unique. apply (bool_decide_unpack _). vm_compute. exact I.
  - vm_compute. reflexivity.
  - exists w'. split; [exact Hrun|]. rewrite Hc. reflexivity.
Defined.

(** ** Beyond the claims: the statement files of [scrape_financial_data] *)

(** X11: when the four calls answer, the statements with tables and the
    history with the dividends column and rows of the symbol, the dividends
    file is written with a header line and exactly
    those rows, in their order: rows of other symbols in the shared history
    do not reach the file. *)
Theorem dividends_file_holds_the_symbol_only
    (income_statement balance_sheet cash_flow : string -> outcome Scraping.answer)
    (history : string -> outcome Scraping.history_frame) (cwd : string)
    (bank ticker : string) (i b c : csv_file) (h : list Scraping.history_row)
    (w : world) :
  fetch_statements income_statement balance_sheet cash_flow history ticker
  = Done (Scraping.Table i, Scraping.Table b, Scraping.Table c, h) ->
  dividends_of ticker h <> [] ->
  exists w',
    Scraping.scrape_bank income_statement balance_sheet cash_flow history cwd
      (bank, ticker) w = (w', Done tt)
    /\ files w' !! path_join cwd (bank +:+ "_dividends.csv")
       = Some (["symbol"; "date"; "dividends"]
               :: map (fun r => [Scraping.h_symbol r; Scraping.h_date r;
                                 Scraping.h_dividends r])
                      (dividends_of ticker h))
    /\ Forall (fun r => Scraping.h_symbol r = ticker) (dividends_of ticker h)
    /\ (forall r, In r h -> Scraping.h_symbol r = ticker -> In r (dividends_of ticker h))
    /\ stdout w' = stdout w ++ [MsgScraping bank ticker; MsgDataSaved bank].
Proof.
  intros Hall Hne. eexists.
  split; [exact (scrape_bank_done _ _ _ _ cwd bank ticker i b c h w Hall)|].
  destruct (dividends_of ticker h) as [|r d] eqn:Hd; [contradiction|].
  split; [|split; [|split]].
  - cbn [files log_message with_files]. apply lookup_insert_eq.
  - rewrite <- Hd. apply dividends_of_symbol.
  - intros r0 Hin Hs. rewrite <- Hd. unfold dividends_of.
    apply list_elem_of_In, list_elem_of_filter. split.
    + apply Is_true_true. apply String.eqb_eq. exact Hs.
    + apply list_elem_of_In. exact Hin.
  - cbn [stdout log_message with_files].
    rewrite (statements_saved_stdout cwd bank ticker i b c w), <- app_assoc.
    reflexivity.
Qed.

Lemma dividends_file_holds_the_symbol_only_witness :
  exists w',
    Scraping.scrape_bank Scenario.some_statement Scenario.some_statement
      Scenario.some_statement Examples.mixed_history Insertion.csv_folder
      ("TD", "TD.TO") Scenario.no_files = (w', Done tt)
    /\ files w' !! path_join Insertion.csv_folder ("TD" +:+ "_dividends.csv")
       = Some [["symbol"; "date"; "dividends"];
               ["TD.TO"; "2024-10-10"; "1.02"]; ["TD.TO"; "2025-01-10"; "1.05"]].
Proof.
  destruct (dividends_file_holds_the_symbol_only Scenario.some_statement
              Scenario.some_statement Scenario.some_statement Examples.mixed_history
              Insertion.csv_folder "TD" "TD.TO"
              Scenario.statement_lines Scenario.statement_lines
              Scenario.statement_lines Examples.mixed_rows
              Scenario.no_files)
    as (w' & Hrun & Hfile & _).
  - reflexivity.
  - vm_compute. discriminate.
  - exists w'. split; [exact Hrun|]. rewrite Hfile. vm_compute. reflexivity.
Defined.

(** X12: [scrape_financial_data] has no handler.  The first bank for which
    one of the four provider calls fails (or whose history comes without
    the dividends column) ends the function with that exception: the banks
    before it keep their files, the failing bank gets its opening line and
    no file, not even for the statements that had answered, and the banks
    after it are not scraped. *)
Theorem failing_call_ends_the_scrape
    (income_statement balance_sheet cash_flow : string -> outcome Scraping.answer)
    (history : string -> outcome Scraping.history_frame) (cwd : string)
    (pre post : list (string * string)) (bank ticker : string)
    (w w1 : world) (e : exn) :
  Scraping.scrape_financial_data income_statement balance_sheet cash_flow history
    cwd pre w = (w1, Done tt) ->
  fetch_statements income_statement balance_sheet cash_flow history ticker
  = Raised e ->
  exists w',
    Scraping.scrape_financial_data income_statement balance_sheet cash_flow history
      cwd (pre ++ (bank, ticker) :: post) w = (w', Raised e)
    /\ files w' = files w1
    /\ stdout w' = stdout w1 ++ [MsgScraping bank ticker].
Proof.
  intros Hpre Hfail. eexists. split; [|split].
  - unfold Scraping.scrape_financial_data in *. rewrite for_each_app.
    unfold bind at 1. rewrite Hpre. cbn [for_each]. unfold bind at 1.
    rewrite (scrape_bank_raised _ _ _ _ cwd bank ticker e w1 Hfail). reflexivity.
  - reflexivity.
  - reflexivity.
Qed.

Lemma failing_call_ends_the_scrape_witness :
  exists w',
    Scraping.scrape_financial_data Scenario.some_statement Examples.failing_statement
      Scenario.some_statement Examples.mixed_history Insertion.csv_folder
      Scraping.bank_tickers Scenario.no_files = (w', Raised (ProviderError "TD.TO"))
    /\ files w' = ∅
    /\ stdout w' = [MsgScraping "TD" "TD.TO"].
Proof.
  destruct (failing_call_ends_the_scrape Scenario.some_statement
              Examples.failing_statement Scenario.some_statement Examples.mixed_history
              Insertion.csv_folder [] (tl Scraping.bank_tickers) "TD" "TD.TO"
              Scenario.no_files Scenario.no_files (ProviderError "TD.TO"))
    as (w' & Hrun & Hf & Hs).
  - reflexivity.
  - reflexivity.
  - exists w'. split; [exact Hrun|]. split; [exact Hf | exact Hs].
Defined.

(** X13: however it ends, [scrape_financial_data] sends nothing to the
    database and touches no file but the four it names after each bank of
    its catalog: every other path keeps its content. *)
Theorem scrape_writes_its_own_files_only
    (income_statement balance_sheet cash_flow : string -> outcome Scraping.answer)
    (history : string -> outcome Scraping.history_frame) (cwd : string)
    (tickers : list (string * string)) (w w' : world) (o : outcome unit) :
  Scraping.scrape_financial_data income_statement balance_sheet cash_flow history
    cwd tickers w = (w', o) ->
  committed w' = committed w /\ pending w' = pending w /\ issued w' = issued w
  /\ forall p,
       (forall bank suffix,
          In bank (map fst tickers) -> In suffix statement_suffixes ->
          p <> path_join cwd (bank +:+ suffix)) ->
       files w' !! p = files w !! p.
Proof.
  unfold Scraping.scrape_financial_data. revert w.
  induction tickers as [|[bank ticker] tickers IH]; intros w; cbn [for_each].
  - intros [= <- <-]. repeat split.
  - unfold bind.
    destruct (Scraping.scrape_bank income_statement balance_sheet cash_flow history
                cwd (bank, ticker) w) as [w1 [[]|e]] eqn:Hturn.
    + intros Hrest.
      destruct (scrape_bank_frame _ _ _ _ _ _ _ _ _ _ Hturn) as (Hc & Hp & Hi & Hf).
      destruct (IH _ Hrest) as (Hc' & Hp' & Hi' & Hf').
      split; [congruence|]. split; [congruence|]. split; [congruence|].
      intros p Hout. rewrite Hf', Hf.
      * reflexivity.
      * intros suffix Hs. apply Hout; [left; reflexivity | exact Hs].
      * intros bank' suffix Hb Hs. apply Hout; [right; exact Hb | exact Hs].
    + intros [= <- <-].
      destruct (scrape_bank_frame _ _ _ _ _ _ _ _ _ _ Hturn) as (Hc & Hp & Hi & Hf).
      split; [exact Hc|]. split; [exact Hp|]. split; [exact Hi|].
      intros p Hout. apply Hf.
      intros suffix Hs. apply Hout; [left; reflexivity | exact Hs].
Qed.

Lemma scrape_writes_its_own_files_only_witness :
  let w' := fst (Scraping.scrape_financial_data Scenario.some_statement
                   Scenario.some_statement Scenario.some_statement
                   Examples.mixed_history Insertion.csv_folder
                   Scenario.td_catalog Scenario.td_only) in
  committed w' = [] /\ issued w' = []
  /\ files w' !! Insertion.file_path "TD"
     = Some (Scraping.to_csv "TD.TO" Scenario.td_bars).
Proof.
  cbv zeta.
  destruct (scrape_writes_its_own_files_only Scenario.some_statement
              Scenario.some_statement Scenario.some_statement
              Examples.mixed_history Insertion.csv_folder
              Scenario.td_catalog Scenario.td_only
              (fst (Scraping.scrape_financial_data Scenario.some_statement
                      Scenario.some_statement Scenario.some_statement
                      Examples.mixed_history Insertion.csv_folder
                      Scenario.td_catalog Scenario.td_only))
              (Done tt))
    as (Hc & _ & Hi & Hf).
  - vm_compute. reflexivity.
  - split; [exact Hc|]. split; [exact Hi|].
    rewrite Hf; [vm_compute; reflexivity|].
    intros bank suffix [<-|[]] Hs Heq.
    apply path_join_inj in Heq.
    cbn in Hs. destruct Hs as [<-|[<-|[<-|[<-|[]]]]]; discriminate Heq.
Defined.

(** X18: a symbol whose history comes without the dividends column ends
    the scrape, although its four calls answered: the selection of the
    column raises a KeyError before the first file is written, so the bank
    gets its opening line and none of its statement files, and the banks
    after it are not scraped. *)
Theorem missing_dividends_column_ends_the_scrape
    (income_statement balance_sheet cash_flow : string -> outcome Scraping.answer)
    (history : string -> outcome Scraping.history_frame) (cwd : string)
    (pre post : list (string * string)) (bank ticker : string)
    (i b c : Scraping.answer) (fr : Scraping.history_frame) (w w1 : world) :
  Scraping.scrape_financial_data income_statement balance_sheet cash_flow history
    cwd pre w = (w1, Done tt) ->
  income_statement ticker = Done i ->
  balance_sheet ticker = Done b ->
  cash_flow ticker = Done c ->
  history ticker = Done fr ->
  Scraping.with_dividends fr = false ->
  exists w',
    Scraping.scrape_financial_data income_statement balance_sheet cash_flow history
      cwd (pre ++ (bank, ticker) :: post) w = (w', Raised (KeyError "dividends"))
    /\ files w' = files w1
    /\ stdout w' = stdout w1 ++ [MsgScraping bank ticker].
Proof.
  intros Hpre Hi Hb Hc Hh Hwd.
  assert (Hfail :
    fetch_statements income_statement balance_sheet cash_flow history ticker
    = Raised (KeyError "dividends"))
    by (unfold fetch_statements; rewrite Hi, Hb, Hc, Hh, Hwd; reflexivity).
  eexists. split; [|split].
  - unfold Scraping.scrape_financial_data in *. rewrite for_each_app.
    unfold bind at 1. rewrite Hpre. cbn [for_each]. unfold bind at 1.
    rewrite (scrape_bank_raised _ _ _ _ cwd bank ticker _ w1 Hfail). reflexivity.
  - reflexivity.
  - reflexivity.
Qed.

Lemma missing_dividends_column_ends_the_scrape_witness :
  exists w',
    Scraping.scrape_financial_data Scenario.some_statement Scenario.some_statement
      Scenario.some_statement Scenario.no_dividend_history Insertion.csv_folder
      Scraping.bank_tickers Scenario.no_files = (w', Raised (KeyError "dividends"))
    /\ files w' = ∅
    /\ stdout w' = [MsgScraping "TD" "TD.TO"].
Proof.
  destruct (missing_dividends_column_ends_the_scrape Scenario.some_statement
              Scenario.some_statement Scenario.some_statement
              Scenario.no_dividend_history Insertion.csv_folder
              [] (tl Scraping.bank_tickers) "TD" "TD.TO"
              (Scraping.Table Scenario.statement_lines)
              (Scraping.Table Scenario.statement_lines)
              (Scraping.Table Scenario.statement_lines)
              (Scenario.no_dividend "TD.TO")
              Scenario.no_files Scenario.no_files)
    as (w' & Hrun & Hf & Hs).
  - reflexivity.
  - reflexivity.
  - reflexivity.
  - reflexivity.
  - reflexivity.
  - reflexivity.
  - exists w'. split; [exact Hrun|]. split; [exact Hf | exact Hs].
Defined.

(** X19: the statement files are written one after the other, each frame
    being built just before its file.  When the provider answers the
    balance sheet with a text instead of a table, the income statement file
    is already written when [pd.DataFrame] raises: the turn ends with that
    one file, and without the closing line. *)
Theorem statement_without_table_stops_midway
    (income_statement balance_sheet cash_flow : string -> outcome Scraping.answer)
    (history : string -> outcome Scraping.history_frame) (cwd : string)
    (bank ticker text : string) (i : csv_file) (c : Scraping.answer)
    (fr : Scraping.history_frame) (w : world) :
  income_statement ticker = Done (Scraping.Table i) ->
  balance_sheet ticker = Done (Scraping.Notice text) ->
  cash_flow ticker = Done c ->
  history ticker = Done fr ->
  Scraping.with_dividends fr = true ->
  exists w',
    Scraping.scrape_bank income_statement balance_sheet cash_flow history cwd
      (bank, ticker) w = (w', Raised ConstructorError)
    /\ files w' = <[path_join cwd (bank +:+ "_income_statement.csv") := i]> (files w)
    /\ stdout w' = stdout w ++ [MsgScraping bank ticker].
Proof.
  intros Hi Hb Hc Hh Hwd. destruct fr as [wd rows].
  cbn [Scraping.with_dividends] in Hwd. subst wd.
  unfold Scraping.scrape_bank, bind, print, lift, Scraping.select_dividends,
    Scraping.save_answer, write_file, ret, raise.
  rewrite Hi, Hb, Hc, Hh. cbn [Scraping.with_dividends Scraping.history_rows].
  eexists. split; [reflexivity|]. split; reflexivity.
Qed.

Lemma statement_without_table_stops_midway_witness :
  exists w',
    Scraping.scrape_bank Scenario.some_statement Examples.missing_statement
      Scenario.some_statement Examples.mixed_history Insertion.csv_folder
      ("TD", "TD.TO") Scenario.no_files = (w', Raised ConstructorError)
    /\ files w' = {[ path_join Insertion.csv_folder ("TD" +:+ "_income_statement.csv")
                     := Scenario.statement_lines ]}
    /\ stdout w' = [MsgScraping "TD" "TD.TO"].
Proof.
  destruct (statement_without_table_stops_midway Scenario.some_statement
              Examples.missing_statement Scenario.some_statement
              Examples.mixed_history Insertion.csv_folder "TD" "TD.TO"
              "Balance Sheet data unavailable" Scenario.statement_lines
              (Scraping.Table Scenario.statement_lines)
              (Scraping.mkHistoryFrame true Examples.mixed_rows)
              Scenario.no_files)
    as (w' & Hrun & Hf & Hs).
  - reflexivity.
  - reflexivity.
  - reflexivity.
  - reflexivity.
  - reflexivity.
  - exists w'. split; [exact Hrun|]. split; [|exact Hs].
    rewrite Hf. reflexivity.
Defined.

(** ** Beyond the claims: downloading and saving any catalog *)

Section Downloads.
Variable feed : string -> outcome (list Scraping.price_bar).
Variable cwd : string.

Lemma string_length_app (a s : string) :
  String.length (a +:+ s) = String.length a + String.length s.
Proof.
  induction a as [|c a IH]; [reflexivity|].
  change (S (String.length (a +:+ s)) = S (String.length a + String.length s)).
  rewrite IH. reflexivity.
Qed.

Lemma append_inj_r (s a b : string) : a +:+ s = b +:+ s -> a = b.
Proof.
  revert b. induction a as [|c a IH]; intros [|c' b] H.
  - reflexivity.
  - exfalso. apply (f_equal String.length) in H.
    change (String.length s = S (String.length (b +:+ s))) in H.
    rewrite string_length_app in H. lia.
  - exfalso. apply (f_equal String.length) in H.
    change (S (String.length (a +:+ s)) = String.length s) in H.
    rewrite string_length_app in H. lia.
  - change (String c (a +:+ s) = String c' (b +:+ s)) in H.
    injection H as -> H. f_equal. apply IH. exact H.
Qed.

Lemma dict_set_fresh {V} (k : string) (v : V) (d : list (string * V)) :
  ~ In k (map fst d) -> Scraping.dict_set k v d = d ++ [(k, v)].
Proof.
  induction d as [|[k' v'] d IH]; cbn [Scraping.dict_set map fst]; intros H.
  - reflexivity.
  - destruct (String.eqb k' k) eqn:E.
    + apply String.eqb_eq in E. exfalso. apply H. left. exact E.
    + rewrite IH; [reflexivity|]. intros Hin. apply H. right. exact Hin.
Qed.

(** With bank names all different, the dict of cell 11 lists the downloads
    in the order of the catalog. *)
Lemma download_dict (l : list ((string * string) * list Scraping.price_bar)) :
  forall hd : list (string * (string * list Scraping.price_bar)),
    NoDup (map fst hd ++ map (fun x => fst (fst x)) l) ->
    fold_left (fun d x => Scraping.dict_set (fst (fst x)) (snd (fst x), snd x) d) l hd
    = hd ++ map (fun x => (fst (fst x), (snd (fst x), snd x))) l.
Proof.
  induction l as [|x l IH]; intros hd Hnd; cbn [fold_left map].
  - rewrite app_nil_r. reflexivity.
  - cbn [map] in Hnd. apply NoDup_app in Hnd. destruct Hnd as (Hhd & Hdisj & Hl).
    apply NoDup_cons in Hl. destruct Hl as [Hx Hl].
    rewrite dict_set_fresh.
    + rewrite IH; [rewrite <- app_assoc; reflexivity|].
      rewrite map_app. cbn [map fst]. apply NoDup_app. split; [|split; [|exact Hl]].
      * apply NoDup_app. split; [exact Hhd|]. split; [|apply NoDup_singleton].
        intros k Hk Hk'. apply list_elem_of_singleton in Hk'. subst k.
        apply (Hdisj _ Hk). left.
      * intros k Hk Hk'. apply elem_of_app in Hk. destruct Hk as [Hk|Hk].
        -- apply (Hdisj _ Hk). right. exact Hk'.
        -- apply list_elem_of_singleton in Hk. subst k. exact (Hx Hk').
    + intros Hin. apply (Hdisj (fst (fst x))); [apply list_elem_of_In; exact Hin | left].
Qed.

Lemma saved_files_frame (hd : list (string * (string * list Scraping.price_bar))) :
  forall (m : gmap string csv_file) (p : string),
    (forall bd, In bd hd -> p <> path_join cwd (fst bd +:+ "_historical_data.csv")) ->
    fold_left
      (fun fs bd =>
         <[path_join cwd (fst bd +:+ "_historical_data.csv")
           := Scraping.to_csv (fst (snd bd)) (snd (snd bd))]> fs) hd m !! p
    = m !! p.
Proof.
  induction hd as [|bd hd IH]; intros m p Hout; cbn [fold_left]; [reflexivity|].
  rewrite IH by (intros bd' Hin; apply Hout; right; exact Hin).
  apply lookup_insert_ne. intros Heq. apply (Hout bd); [left; reflexivity|].
  symmetry. exact Heq.
Qed.

Lemma saved_files_lookup (hd : list (string * (string * list Scraping.price_bar))) :
  NoDup (map fst hd) ->
  forall (m : gmap string csv_file) (bank ticker : string)
         (bars : list Scraping.price_bar),
    In (bank, (ticker, bars)) hd ->
    fold_left
      (fun fs bd =>
         <[path_join cwd (fst bd +:+ "_historical_data.csv")
           := Scraping.to_csv (fst (snd bd)) (snd (snd bd))]> fs) hd m
      !! path_join cwd (bank +:+ "_historical_data.csv")
    = Some (Scraping.to_csv ticker bars).
Proof.
  induction hd as [|bd hd IH]; intros Hnd m bank ticker bars Hin; [destruct Hin|].
  cbn [map] in Hnd. apply NoDup_cons in Hnd. destruct Hnd as [Hbd Hnd].
  cbn [fold_left]. destruct Hin as [->|Hin].
  - cbn [fst snd]. rewrite saved_files_frame; [apply lookup_insert_eq|].
    intros bd' Hin' Heq. apply Hbd. cbn [fst].
    apply path_join_inj, append_inj_r in Heq. rewrite Heq.
    apply list_elem_of_In, in_map. exact Hin'.
  - apply IH; assumption.
Qed.

Lemma combine_tickers (tickers : list (string * string))
    (data : list (list Scraping.price_bar)) :
  Forall2 (fun bt bars => feed (snd bt) = Done bars) tickers data ->
  map fst (combine tickers data) = tickers.
Proof.
  induction 1 as [|bt bars tickers data _ _ IH]; cbn [combine map fst];
    [reflexivity | rewrite IH; reflexivity].
Qed.

Lemma download_loop_frame (tickers : list (string * string)) :
  forall (hd : list (string * (string * list Scraping.price_bar))) (w w' : world)
         (o : outcome (list (string * (string * list Scraping.price_bar)))),
    Scraping.download_loop feed tickers hd w = (w', o) ->
    files w' = files w /\ committed w' = committed w
    /\ pending w' = pending w /\ issued w' = issued w.
Proof.
  induction tickers as [|[bank ticker] tickers IH]; intros hd w w' o;
    cbn [Scraping.download_loop].
  - intros [= <- <-]. repeat split.
  - unfold bind at 1. unfold print. unfold bind at 1. unfold lift.
    destruct (feed ticker) as [bars|e].
    + intros Hrest. destruct (IH _ _ _ _ Hrest) as (Hf & Hc & Hp & Hi).
      repeat split; assumption.
    + intros [= <- <-]. repeat split.
Qed.

End Downloads.

(** X14: for any catalog whose bank names are all different and whose
    symbols the provider all answers, cells 11 and 12 end normally, print a
    download line per ticker and then a save line per ticker in the
    catalog's order, leave under each bank's name the file of the bars of
    its own symbol, and change no other file and nothing in the database. *)
Theorem every_bank_gets_its_own_file
    (feed : string -> outcome (list Scraping.price_bar)) (cwd : string)
    (tickers : list (string * string)) (data : list (list Scraping.price_bar))
    (w : world) :
  NoDup (map fst tickers) ->
  Forall2 (fun bt bars => feed (snd bt) = Done bars) tickers data ->
  exists w',
    Scraping.download_and_save feed cwd tickers w = (w', Done tt)
    /\ stdout w'
       = stdout w
         ++ map (fun bt => MsgDownloading (fst bt) (snd bt)) tickers
         ++ map (fun bt => MsgSavedHistorical (fst bt)) tickers
    /\ (forall bank ticker bars,
          In ((bank, ticker), bars) (combine tickers data) ->
          files w' !! path_join cwd (bank +:+ "_historical_data.csv")
          = Some (Scraping.to_csv ticker bars))
    /\ (forall p,
          (forall bank, In bank (map fst tickers) ->
                        p <> path_join cwd (bank +:+ "_historical_data.csv")) ->
          files w' !! p = files w !! p)
    /\ committed w' = committed w.
Proof.
  intros Hnd Hall.
  pose proof (combine_tickers feed tickers data Hall) as Hcomb.
  destruct (download_loop_done feed tickers data Hall [] w) as (w0 & Hdl & Hf0 & Hs0).
  destruct (download_loop_frame feed _ _ _ _ _ Hdl) as (_ & Hc0 & _ & _).
  assert (Hkeys : map (fun x : (string * string) * list Scraping.price_bar => fst (fst x))
                      (combine tickers data) = map fst tickers).
  { rewrite <- (map_map fst fst), Hcomb. reflexivity. }
  rewrite download_dict in Hdl by (cbn [map app]; rewrite Hkeys; exact Hnd).
  cbn [app] in Hdl.
  destruct (save_historical_all cwd
              (map (fun x : (string * string) * list Scraping.price_bar =>
                      (fst (fst x), (snd (fst x), snd x))) (combine tickers data)) w0)
    as (w1 & Hsv & Hf1 & Hs1 & Hc1).
  assert (Hbanks : map fst (map (fun x : (string * string) * list Scraping.price_bar =>
                                  (fst (fst x), (snd (fst x), snd x)))
                               (combine tickers data)) = map fst tickers)
    by (rewrite map_map; exact Hkeys).
  exists w1. split; [|split; [|split; [|split]]].
  - unfold Scraping.download_and_save, bind. rewrite Hdl. exact Hsv.
  - rewrite Hs1, Hs0, <- app_assoc. do 2 f_equal.
    rewrite map_map. cbn [fst].
    rewrite <- (map_map fst (fun bt : string * string => MsgSavedHistorical (fst bt))).
    rewrite Hcomb. reflexivity.
  - intros bank ticker bars Hin. rewrite Hf1, Hf0.
    apply saved_files_lookup; [rewrite Hbanks; exact Hnd|].
    apply in_map_iff. exists ((bank, ticker), bars). split; [reflexivity | exact Hin].
  - intros p Hout. rewrite Hf1, Hf0. apply saved_files_frame.
    intros bd Hin. apply Hout. rewrite <- Hbanks. apply in_map. exact Hin.
  - rewrite Hc1. exact Hc0.
Qed.

Lemma every_bank_gets_its_own_file_witness :
  exists w',
    Scraping.download_and_save Scenario.full_feed Insertion.csv_folder
      Scraping.bank_tickers Scenario.td_only = (w', Done tt)
    /\ files w' !! Insertion.file_path "RBC"
       = Some (Scraping.to_csv "RY.TO" Scenario.bns_bars).
Proof.
  destruct (every_bank_gets_its_own_file Scenario.full_feed Insertion.csv_folder
              Scraping.bank_tickers
              [Scenario.td_bars; Scenario.bns_bars; Scenario.bns_bars;
               Scenario.bns_bars; Scenario.bns_bars]
              Scenario.td_only)
    as (w' & Hrun & _ & Hfiles & _).
  - apply (bool_decide_unpack _). vm_compute. exact I.
  - repeat constructor.
  - exists w'. split; [exact Hrun|].
    apply (Hfiles "RBC" "RY.TO" Scenario.bns_bars).
    right. right. left. reflexivity.
Defined.

(** X15: cell 11 has no handler either.  The first symbol the provider
    fails for ends the cell with that exception, after the download line of
    its ticker; the tickers after it are not asked for, and no file and
    nothing in the database has changed. *)
Theorem failing_download_ends_the_cell
    (feed : string -> outcome (list Scraping.price_bar))
    (pre post : list (string * string)) (bank ticker : string)
    (hd : list (string * (string * list Scraping.price_bar))) (w : world) (e : exn) :
  Forall (fun bt => exists bars, feed (snd bt) = Done bars) pre ->
  feed ticker = Raised e ->
  exists w',
    Scraping.download_loop feed (pre ++ (bank, ticker) :: post) hd w = (w', Raised e)
    /\ stdout w'
       = stdout w ++ map (fun bt => MsgDownloading (fst bt) (snd bt))
                         (pre ++ [(bank, ticker)])
    /\ files w' = files w
    /\ committed w' = committed w.
Proof.
  intros Hpre Hfail. revert hd w.
  induction Hpre as [|[b t] pre [bars Hb] _ IH]; intros hd w.
  - eexists. split.
    + cbn [app Scraping.download_loop]. unfold bind at 1. unfold print.
      unfold bind at 1. unfold lift. rewrite Hfail. reflexivity.
    + repeat split.
  - cbn [snd] in Hb.
    destruct (IH (Scraping.dict_set b (t, bars) hd) (log_message (MsgDownloading b t) w))
      as (w' & Hrun & Hs & Hf & Hc).
    exists w'. split; [|split; [|split]].
    + cbn [app Scraping.download_loop]. unfold bind at 1. unfold print.
      unfold bind at 1. unfold lift. rewrite Hb. exact Hrun.
    + rewrite Hs. cbn [stdout log_message app map fst snd].
      rewrite <- app_assoc. reflexivity.
    + rewrite Hf. reflexivity.
    + rewrite Hc. reflexivity.
Qed.

Lemma failing_download_ends_the_cell_witness :
  exists w',
    Scraping.download_loop Examples.feed_without_bmo Scraping.bank_tickers []
      Scenario.no_files = (w', Raised (ProviderError "BMO.TO"))
    /\ stdout w' = [MsgDownloading "TD" "TD.TO"; MsgDownloading "BMO" "BMO.TO"].
Proof.
  destruct (failing_download_ends_the_cell Examples.feed_without_bmo
              [("TD", "TD.TO")] [("RBC", "RY.TO"); ("CIBC", "CM.TO"); ("Scotiabank", "BNS.TO")]
              "BMO" "BMO.TO" [] Scenario.no_files (ProviderError "BMO.TO"))
    as (w' & Hrun & Hs & _).
  - repeat constructor. exists Scenario.bns_bars. reflexivity.
  - reflexivity.
  - exists w'. split; [exact Hrun | exact Hs].
Defined.

(** ** Beyond the claims: short files, and running the cell again *)

(** X16: on a file of one or two lines the two cleaning cells part ways.
    The inspection cells read the header, find at most one row, drop it and
    return an empty frame; the insert cell skips both lines, finds nothing
    to name the columns and raises.  On an empty file both raise. *)
Theorem short_files_split_the_cleaning_cells (l0 l1 : line) :
  length l0 = 6 -> length l1 <= 6 ->
  Inspection.clean [l0] = Done (mkFrame schema_columns [])
  /\ Inspection.clean [l0; l1] = Done (mkFrame schema_columns [])
  /\ Insertion.clean [l0] = Raised EmptyDataError
  /\ Insertion.clean [l0; l1] = Raised EmptyDataError
  /\ Inspection.clean [] = Raised EmptyDataError
  /\ Insertion.clean [] = Raised EmptyDataError.
Proof.
  intros H0 H1. unfold Inspection.clean, Insertion.clean, read_csv_lines.
  cbn [skipn forallb map]. rewrite H0.
  apply Nat.leb_le in H1. rewrite H1. cbn [andb].
  unfold set_columns, iloc_from. cbn [columns rows skipn]. rewrite H0.
  repeat split.
Qed.

Lemma short_files_split_the_cleaning_cells_witness :
  Inspection.clean Examples.truncated_file = Done (mkFrame schema_columns [])
  /\ Insertion.clean Examples.truncated_file = Raised EmptyDataError.
Proof.
  destruct (short_files_split_the_cleaning_cells
              ["Price"; "Close"; "High"; "Low"; "Open"; "Volume"]
              ("Ticker" :: repeat "TD.TO" 5))
    as (_ & Hi & _ & He & _).
  - reflexivity.
  - cbn. repeat constructor.
  - split; [exact Hi | exact He].
Defined.

(** X17: on a keyed table a run cannot be resumed by running the cell
    again.  If the first file of the catalog that is there begins with a
    row whose key is already stored, the cell raises the uniqueness
    violation on that row, stores nothing, and does not reach the tickers
    after it, whatever their files hold. *)
Theorem stored_first_ticker_blocks_the_rerun (tbl : table_decl)
    (bank ticker : string) (later : list (string * string)) (f : csv_file)
    (r : db_row) (rest : list db_row) (w : world) :
  unique_key tbl = true ->
  db_up w = true ->
  files w !! Insertion.file_path bank = Some f ->
  batch_of ticker f = r :: rest ->
  col_ok tbl r = true ->
  In (key_of r) (map key_of (committed w)) ->
  exists w',
    Insertion.insert_cell_of tbl ((bank, ticker) :: later) w = (w', Done tt)
    /\ committed w' = committed w
    /\ issued w' = issued w ++ [StInsert r]
    /\ stdout w'
       = stdout w ++ [MsgError (UniqueViolation (stock_ticker r) (date r))].
Proof.
  intros Hk Hup Hf Hb Hok Hin.
  destruct (batch_of_clean _ _ _ _ Hb) as (df & Hclean & Hrows).
  assert (Hturn :
    Insertion.insert_bank tbl (bank, ticker) (with_txn (committed w) [] w)
    = (with_txn (committed w) []
         (log_statement (StInsert r) (with_txn (committed w) [] w)),
       Raised (UniqueViolation (stock_ticker r) (date r)))).
  { rewrite (insert_bank_present tbl _ _ f) by exact Hf.
    rewrite (insert_file_clean tbl _ _ _ f df) by (exact Hf || exact Hclean).
    rewrite Hrows. cbn [for_each]. unfold bind, cursor_execute.
    rewrite Hok, Hk. cbn [negb andb].
    assert (Ht : key_taken r (with_txn (committed w) [] w) = true).
    { unfold key_taken. apply bool_decide_eq_true_2.
      cbn [committed pending with_txn]. rewrite app_nil_r.
      apply list_elem_of_In. exact Hin. }
    rewrite Ht. reflexivity. }
  eexists. split.
  { unfold Insertion.insert_cell_of, try_except.
    unfold bind at 1. rewrite (connect_up w Hup).
    unfold bind at 1. unfold Insertion.insert_loop. cbn [for_each].
    unfold bind at 1. rewrite Hturn. unfold print. reflexivity. }
  repeat split.
Qed.

Lemma stored_first_ticker_blocks_the_rerun_witness :
  exists w',
    Insertion.insert_cell Canonical.stock_prices
      (fst (Insertion.insert_cell Canonical.stock_prices Scenario.td_only))
    = (w', Done tt)
    /\ committed w' = Scenario.td_rows.
Proof.
  destruct (stored_first_ticker_blocks_the_rerun Canonical.stock_prices
              "TD" "TD.TO" [("Scotiabank", "BNS.TO"); ("RBC", "RY.TO")]
              (Scraping.to_csv "TD.TO" Scenario.td_bars)
              (mkRow "TD.TO" "2020-01-02" "57.78106587137342" "57.99416701667758"
                     "57.560076551433816" "57.946807861328125" "2207900")
              (tl Scenario.td_rows)
              (fst (Insertion.insert_cell Canonical.stock_prices Scenario.td_only)))
    as (w' & Hrun & Hc & _).
  - reflexivity.
  - vm_compute. reflexivity.
  - vm_compute. reflexivity.
  - vm_compute. reflexivity.
  - vm_compute. reflexivity.
  - apply (bool_decide_unpack _). vm_compute. exact I.
  - exists w'. split; [exact Hrun|]. rewrite Hc. vm_compute. reflexivity.
Defined.
